(** * mcp-sample: the tool handlers of [server.py] and [weather.py]

    A shallow embedding of the handlers and of the part of Python they
    rely on: JSON-decoded values, truthiness, [dict.get], subscripting,
    iteration, membership, exceptions with [try]/[except], and the HTTP
    client seen as an oracle whose requests are logged. *)

From Stdlib Require Import ZArith List String Ascii Bool Lia Floats.
Import ListNotations.

Set Warnings "-register-all".

Local Open Scope string_scope.
Local Open Scope Z_scope.

(** ** Values decoded from a JSON body

    [response.json()] yields [None], a [bool], an [int], a [float], a [str],
    a [list] or a [dict] with [str] keys.  Strings are kept as their UTF-8
    bytes.  A [dict] is the list of its items in insertion order, with
    distinct keys as the decoder leaves them; lookup takes the first item
    with the key. *)

Inductive json : Type :=
| JNull
| JBool (b : bool)
| JInt (n : Z)
| JFloat (f : float)
| JStr (s : string)
| JList (l : list json)
| JDict (d : list (string * json)).

(** ** Exceptions and results *)

Inductive exn : Type :=
| KeyError
| TypeError
| IndexError
| AttributeError
| HTTPStatusError
| JSONDecodeError
| RequestError.

Inductive res (A : Type) : Type :=
| Ok (a : A)
| Raise (e : exn).

Arguments Ok {A} a.
Arguments Raise {A} e.

Definition res_bind {A B} (r : res A) (k : A -> res B) : res B :=
  match r with
  | Ok a => k a
  | Raise e => Raise e
  end.

Notation "x <- c ;; k" := (res_bind c (fun x => k))
  (at level 61, c at next level, right associativity).

(** ** The Python operations the handlers use *)

(** [bool(v)]. *)
Definition truthy (v : json) : bool :=
  match v with
  | JNull => false
  | JBool b => b
  | JInt n => negb (n =? 0)
  | JFloat f => negb (PrimFloat.eqb f 0%float)
  | JStr s => negb (String.eqb s "")
  | JList l => match l with [] => false | _ :: _ => true end
  | JDict d => match d with [] => false | _ :: _ => true end
  end.

(** [isinstance(v, dict)] and [isinstance(v, list)]. *)
Definition is_dict (v : json) : bool :=
  match v with JDict _ => true | _ => false end.

Definition is_list (v : json) : bool :=
  match v with JList _ => true | _ => false end.

Fixpoint lookup (key : string) (d : list (string * json)) : option json :=
  match d with
  | [] => None
  | (k, v) :: rest => if String.eqb k key then Some v else lookup key rest
  end.

(** [d.get(key, default)] on the items of a dict. *)
Definition get (d : list (string * json)) (key : string) (default : json) : json :=
  match lookup key d with
  | Some v => v
  | None => default
  end.

(** [v[key]] with a [str] key: a dict raises [KeyError] on a missing key;
    a list or a string wants integer indices and any other value is not
    subscriptable, both a [TypeError]. *)
Definition getitem (v : json) (key : string) : res json :=
  match v with
  | JDict d =>
      match lookup key d with
      | Some x => Ok x
      | None => Raise KeyError
      end
  | _ => Raise TypeError
  end.

(** The characters of a UTF-8 string: a lead byte with the continuation
    bytes (10xxxxxx) that follow it. *)
Definition is_continuation (c : ascii) : bool :=
  let n := N_of_ascii c in ((128 <=? n) && (n <? 192))%N.

Fixpoint split_chars (s : string) : string * list string :=
  match s with
  | EmptyString => (EmptyString, [])
  | String c rest =>
      let '(k, cs) := split_chars rest in
      if is_continuation c then (String c k, cs)
      else (EmptyString, String c k :: cs)
  end.

Definition chars (s : string) : list string :=
  let '(k, cs) := split_chars s in
  match k with
  | EmptyString => cs
  | _ => k :: cs
  end.

(** The items a [for] loop draws from [v]: the elements of a list, the
    keys of a dict, the characters of a string; any other value is not
    iterable. *)
Definition iter (v : json) : res (list json) :=
  match v with
  | JList l => Ok l
  | JDict d => Ok (map (fun kv => JStr (fst kv)) d)
  | JStr s => Ok (map JStr (chars s))
  | _ => Raise TypeError
  end.

Fixpoint is_substring (needle hay : string) : bool :=
  String.prefix needle hay ||
  match hay with
  | EmptyString => false
  | String _ rest => is_substring needle rest
  end.

Definition is_str (s : string) (v : json) : bool :=
  match v with
  | JStr t => String.eqb t s
  | _ => false
  end.

(** [s in v] for a [str] [s]: substring of a string, element of a list,
    key of a dict; [TypeError] otherwise. *)
Definition contains (v : json) (s : string) : res bool :=
  match v with
  | JStr t => Ok (is_substring s t)
  | JList l => Ok (existsb (is_str s) l)
  | JDict d => Ok (match lookup s d with Some _ => true | None => false end)
  | _ => Raise TypeError
  end.

(** [v[:n]]: a prefix of a list or of a string.  A dict rejects a slice
    as a key ([TypeError], a [KeyError] from Python 3.12 on, which no
    handler tells apart) and the other values are not subscriptable. *)
Definition slice_to (n : nat) (v : json) : res json :=
  match v with
  | JList l => Ok (JList (firstn n l))
  | JStr s => Ok (JStr (String.concat "" (firstn n (chars s))))
  | _ => Raise TypeError
  end.

(** [v.get(key, default)]: only a dict has the method. *)
Definition dict_get (v : json) (key : string) (default : json) : res json :=
  match v with
  | JDict d => Ok (get d key default)
  | _ => Raise AttributeError
  end.

(** [v[0]]. *)
Definition item0 (v : json) : res json :=
  match v with
  | JList (x :: _) => Ok x
  | JList [] => Raise IndexError
  | JStr s =>
      match chars s with
      | c :: _ => Ok (JStr c)
      | [] => Raise IndexError
      end
  | JDict _ => Raise KeyError
  | _ => Raise TypeError
  end.

(** [sep.join(l)]. *)
Definition join (sep : string) (l : list string) : string :=
  String.concat sep l.

(** [[f(x) for x in l]]: the calls are made in order and the first
    exception ends the comprehension. *)
Fixpoint map_res {A B} (f : A -> res B) (l : list A) : res (list B) :=
  match l with
  | [] => Ok []
  | x :: rest =>
      y <- f x ;;
      ys <- map_res f rest ;;
      Ok (y :: ys)
  end.

(** The line feed of the triple-quoted templates and of the separator. *)
Definition LF : string := String "010"%char EmptyString.

Module ServerPy.

(** [server.py]: [echo] and [add].  The arguments of [add] are annotated
    [float]: binary64 numbers. *)

Definition echo (text : string) : string := text.

Definition add (a b : float) : float := (a + b)%float.

End ServerPy.

(** ** The HTTP client

    [httpx] is used through one call, [client.get(url, headers=...,
    timeout=...)], followed by [raise_for_status()] and [json()].  The
    outside world is an oracle: it answers the n-th request of a run with
    a response or with a raised exception.  A handler threads the list of
    requests made so far. *)

Record request : Type := {
  url : json;
  headers : list (string * string);
  timeout : float
}.

Record response : Type := {
  status_code : Z;
  body : option json   (* [None]: the body does not decode as JSON *)
}.

Inductive outcome : Type :=
| Failed (e : exn)
| Responded (r : response).

Definition network : Type := nat -> request -> outcome.

Definition M (A : Type) : Type := list request -> res A * list request.

Definition ret {A} (a : A) : M A := fun tr => (Ok a, tr).

Definition bind {A B} (m : M A) (k : A -> M B) : M B :=
  fun tr =>
    match m tr with
    | (Ok a, tr') => k a tr'
    | (Raise e, tr') => (Raise e, tr')
    end.

Definition lift {A} (r : res A) : M A := fun tr => (r, tr).

(** [try: m  except Exception: handler]; every [exn] derives from
    [Exception]. *)
Definition try_except {A} (m : M A) (handler : M A) : M A :=
  fun tr =>
    match m tr with
    | (Ok a, tr') => (Ok a, tr')
    | (Raise _, tr') => handler tr'
    end.

Notation "x <<- c ;; k" := (bind c (fun x => k))
  (at level 61, c at next level, right associativity).

Definition client_get (net : network) (rq : request) : M response :=
  fun tr =>
    (match net (List.length tr) rq with
     | Failed e => Raise e
     | Responded r => Ok r
     end, (tr ++ [rq])%list).

(** [response.raise_for_status()]: anything but a 2xx status raises. *)
Definition raise_for_status (r : response) : res unit :=
  if (200 <=? status_code r) && (status_code r <=? 299) then Ok tt
  else Raise HTTPStatusError.

(** [response.json()]. *)
Definition response_json (r : response) : res json :=
  match body r with
  | Some v => Ok v
  | None => Raise JSONDecodeError
  end.

Module WeatherPy.

(** [weather.py]. *)

Definition NWS_API_BASE : string := "https://api.weather.gov".
Definition USER_AGENT : string := "weather-app/1.0".

Section Handlers.

(** [str(v)] of a value that is not a string, as the f-strings call it:
    the text Python prints for numbers, [None], lists and dicts. *)
Variable str_of : json -> string.

Variable net : network.

(** [f"{v}"]. *)
Definition format (v : json) : string :=
  match v with
  | JStr s => s
  | _ => str_of v
  end.

Definition make_nws_request (url : json) : M json :=
  let headers :=
    [("User-Agent", USER_AGENT); ("Accept", "application/geo+json")] in
  try_except
    (response <<- client_get net
        {| url := url; headers := headers; timeout := 30%float |} ;;
     _ <<- lift (raise_for_status response) ;;
     lift (response_json response))
    (ret JNull).

Definition format_alert (feature : json) : res string :=
  props <- getitem feature "properties" ;;
  event <- dict_get props "event" (JStr "Unknown") ;;
  areaDesc <- dict_get props "areaDesc" (JStr "Unknown") ;;
  severity <- dict_get props "severity" (JStr "Unknown") ;;
  description <- dict_get props "description" (JStr "No description available") ;;
  instruction <-
    dict_get props "instruction" (JStr "No specific instructions provided") ;;
  Ok (LF ++ "Event: " ++ format event ++ LF
      ++ "Area: " ++ format areaDesc ++ LF
      ++ "Severity: " ++ format severity ++ LF
      ++ "Description: " ++ format description ++ LF
      ++ "Instructions: " ++ format instruction ++ LF).

Definition UNABLE_ALERTS : string :=
  "Unable to fetch alerts or no alerts found.".
Definition NO_ALERTS : string := "No active alerts for this state.".

Definition get_alerts (state : string) : M string :=
  let url := NWS_API_BASE ++ "/alerts/active/area/" ++ state in
  data <<- make_nws_request (JStr url) ;;
  missing <<- lift (if negb (truthy data) then Ok true
                    else b <- contains data "features" ;; Ok (negb b)) ;;
  if missing then ret UNABLE_ALERTS
  else
    features <<- lift (getitem data "features") ;;
    if negb (truthy features) then ret NO_ALERTS
    else
      features <<- lift (getitem data "features") ;;
      items <<- lift (iter features) ;;
      alerts <<- lift (map_res format_alert items) ;;
      ret (join (LF ++ "---" ++ LF) alerts).

(** *** [get_tokyo_weather] *)

Definition JMA_URL : string :=
  "https://www.jma.go.jp/bosai/forecast/data/forecast/130000.json".

Definition preferred_names : list string := ["東京地方"; "東京"; "Tokyo"].

(** [any(name in area_name for name in names)]. *)
Fixpoint any_in (names : list string) (area_name : json) : res bool :=
  match names with
  | [] => Ok false
  | name :: rest =>
      b <- contains area_name name ;;
      if b then Ok true else any_in rest area_name
  end.

(** The body of the innermost loop of the first pass for one [area]:
    [Some w] when it assigns [w] to [today_weather] and breaks, [None]
    when it goes on to the next area. *)
Definition preferred_area (area : json) : res (option json) :=
  if negb (is_dict area) then Ok None
  else
    weathers_any <- dict_get area "weathers" JNull ;;
    if negb (is_list weathers_any) || negb (truthy weathers_any)
    then Ok None
    else
      let weathers := weathers_any in
      a <- dict_get area "area" JNull ;;
      area_info <- (if is_dict a then dict_get area "area" (JDict [])
                    else Ok (JDict [])) ;;
      area_name <- dict_get area_info "name" (JStr "") ;;
      hit <- any_in preferred_names area_name ;;
      if hit
      then w <- (if truthy weathers then item0 weathers else Ok JNull) ;;
           Ok (Some w)
      else Ok None.

(** The loops of the first pass.  Each takes the value of [today_weather]
    on entry and gives its value when the loop is left, by exhaustion or
    by [break]. *)
Fixpoint preferred_areas (areas : list json) (today_weather : json)
  : res json :=
  match areas with
  | [] => Ok today_weather
  | area :: rest =>
      r <- preferred_area area ;;
      match r with
      | Some w => Ok w
      | None => preferred_areas rest today_weather
      end
  end.

Fixpoint preferred_series (time_series : list json) (today_weather : json)
  : res json :=
  match time_series with
  | [] => Ok today_weather
  | ts :: rest =>
      areas <- (if is_dict ts then dict_get ts "areas" (JList [])
                else Ok (JList [])) ;;
      items <- iter areas ;;
      today_weather <- preferred_areas items today_weather ;;
      if truthy today_weather then Ok today_weather
      else preferred_series rest today_weather
  end.

Fixpoint preferred_reports (data : list json) (today_weather : json)
  : res json :=
  match data with
  | [] => Ok today_weather
  | obj :: rest =>
      time_series <- (if is_dict obj then dict_get obj "timeSeries" (JList [])
                      else Ok (JList [])) ;;
      items <- iter time_series ;;
      today_weather <- preferred_series items today_weather ;;
      if truthy today_weather then Ok today_weather
      else preferred_reports rest today_weather
  end.

Definition preferred_pass (data : json) : res json :=
  match data with
  | JList l => preferred_reports l JNull
  | _ => Ok JNull
  end.

(** The loops of the second pass. *)
Fixpoint fallback_areas (areas : list json) (today_weather : json)
  : res json :=
  match areas with
  | [] => Ok today_weather
  | area :: rest =>
      if is_dict area then
        weathers_any <- dict_get area "weathers" JNull ;;
        if is_list weathers_any && truthy weathers_any
        then item0 weathers_any
        else Ok today_weather
      else fallback_areas rest today_weather
  end.

Fixpoint fallback_series (time_series : list json) (today_weather : json)
  : res json :=
  match time_series with
  | [] => Ok today_weather
  | ts :: rest =>
      areas <- (if is_dict ts then dict_get ts "areas" (JList [])
                else Ok (JList [])) ;;
      items <- iter areas ;;
      today_weather <- fallback_areas items today_weather ;;
      if truthy today_weather then Ok today_weather
      else fallback_series rest today_weather
  end.

Fixpoint fallback_reports (data : list json) (today_weather : json)
  : res json :=
  match data with
  | [] => Ok today_weather
  | obj :: rest =>
      time_series <- (if is_dict obj then dict_get obj "timeSeries" (JList [])
                      else Ok (JList [])) ;;
      items <- iter time_series ;;
      today_weather <- fallback_series items today_weather ;;
      if truthy today_weather then Ok today_weather
      else fallback_reports rest today_weather
  end.

Definition fallback_pass (data : json) (today_weather : json) : res json :=
  if negb (truthy today_weather) && is_list data
  then match data with
       | JList l => fallback_reports l today_weather
       | _ => Ok today_weather
       end
  else Ok today_weather.

Definition TOKYO_PREFIX : string := "東京の今日の天気: ".
Definition TOKYO_UNAVAILABLE : string :=
  "東京の天気情報を取得できませんでした。".

(** The value of [today_weather] after both passes. *)
Definition resolve (data : json) : res json :=
  today_weather <- preferred_pass data ;;
  fallback_pass data today_weather.

Definition get_tokyo_weather : M string :=
  let url := JMA_URL in
  let headers :=
    [("User-Agent", USER_AGENT); ("Accept", "application/json")] in
  try_except
    (response <<- client_get net
        {| url := JStr url; headers := headers; timeout := 30%float |} ;;
     _ <<- lift (raise_for_status response) ;;
     data <<- lift (response_json response) ;;
     today_weather <<- lift (resolve data) ;;
     if truthy today_weather
     then ret (TOKYO_PREFIX ++ format today_weather)
     else ret TOKYO_UNAVAILABLE)
    (ret TOKYO_UNAVAILABLE).

(** *** [get_forecast] *)

Definition UNABLE_POINTS : string :=
  "Unable to fetch forecast data for this location.".
Definition UNABLE_FORECAST : string := "Unable to fetch detailed forecast.".

Definition format_period (period : json) : res string :=
  name <- getitem period "name" ;;
  temperature <- getitem period "temperature" ;;
  temperatureUnit <- getitem period "temperatureUnit" ;;
  windSpeed <- getitem period "windSpeed" ;;
  windDirection <- getitem period "windDirection" ;;
  detailedForecast <- getitem period "detailedForecast" ;;
  Ok (LF ++ format name ++ ":" ++ LF
      ++ "Temperature: " ++ format temperature ++ "°"
      ++ format temperatureUnit ++ LF
      ++ "Wind: " ++ format windSpeed ++ " " ++ format windDirection ++ LF
      ++ "Forecast: " ++ format detailedForecast ++ LF).

Definition get_forecast (latitude longitude : float) : M string :=
  let points_url :=
    NWS_API_BASE ++ "/points/" ++ format (JFloat latitude) ++ ","
    ++ format (JFloat longitude) in
  points_data <<- make_nws_request (JStr points_url) ;;
  if negb (truthy points_data) then ret UNABLE_POINTS
  else
    properties <<- lift (getitem points_data "properties") ;;
    forecast_url <<- lift (getitem properties "forecast") ;;
    forecast_data <<- make_nws_request forecast_url ;;
    if negb (truthy forecast_data) then ret UNABLE_FORECAST
    else
      properties <<- lift (getitem forecast_data "properties") ;;
      periods <<- lift (getitem properties "periods") ;;
      shown <<- lift (slice_to 5 periods) ;;
      items <<- lift (iter shown) ;;
      forecasts <<- lift (map_res format_period items) ;;
      ret (join (LF ++ "---" ++ LF) forecasts).

End Handlers.

End WeatherPy.

(** * Vocabulary of the statements *)

Import WeatherPy.

(** The request [make_nws_request url] sends. *)
Definition nws_request (u : json) : request :=
  {| url := u;
     headers := [("User-Agent", USER_AGENT); ("Accept", "application/geo+json")];
     timeout := 30%float |}.

(** The request [get_tokyo_weather] sends. *)
Definition jma_request : request :=
  {| url := JStr JMA_URL;
     headers := [("User-Agent", USER_AGENT); ("Accept", "application/json")];
     timeout := 30%float |}.

Definition alerts_url (state : string) : string :=
  NWS_API_BASE ++ "/alerts/active/area/" ++ state.

Definition points_url (str_of : json -> string) (latitude longitude : float)
  : string :=
  NWS_API_BASE ++ "/points/" ++ format str_of (JFloat latitude) ++ ","
  ++ format str_of (JFloat longitude).

Definition success_status (r : response) : bool :=
  (200 <=? status_code r) && (status_code r <=? 299).

(** What a GET outcome amounts to for a caller that wants a document:
    the decoded body of a 2xx response, [None] otherwise. *)
Definition payload (o : outcome) : json :=
  match o with
  | Failed _ => JNull
  | Responded r =>
      if success_status r
      then match body r with Some v => v | None => JNull end
      else JNull
  end.

(** A network that answers every request with status 200 and body [v]. *)
Definition serving (v : json) : network :=
  fun _ _ => Responded {| status_code := 200; body := Some v |}.

(** A rendering for runs that format no value other than a string. *)
Definition plain_str : json -> string := fun _ => "".

(** The text [get_tokyo_weather] makes of a decoded document. *)
Definition tokyo_text (str_of : json -> string) (data : json) : string :=
  match resolve data with
  | Ok w => if truthy w then TOKYO_PREFIX ++ format str_of w
            else TOKYO_UNAVAILABLE
  | Raise _ => TOKYO_UNAVAILABLE
  end.

(** The fetch behind an outcome failed: a transport error, a status
    outside 2xx, or a body that does not decode. *)
Definition failed_fetch (o : outcome) : bool :=
  match o with
  | Failed _ => true
  | Responded r =>
      negb (success_status r)
      || match body r with Some _ => false | None => true end
  end.

(** The shapes [format_alert] and [format_period] rely on. *)
Definition alert_shaped (feature : json) : bool :=
  match feature with
  | JDict fd =>
      match lookup "properties" fd with
      | Some (JDict _) => true
      | _ => false
      end
  | _ => false
  end.

Definition has_key (d : list (string * json)) (key : string) : bool :=
  match lookup key d with
  | Some _ => true
  | None => false
  end.

Definition period_shaped (period : json) : bool :=
  match period with
  | JDict pd =>
      forallb (has_key pd)
        ["name"; "temperature"; "temperatureUnit"; "windSpeed";
         "windDirection"; "detailedForecast"]
  | _ => false
  end.

(** ** Sample inputs *)

(** A network on which every request fails in transport. *)
Definition unreachable : network := fun _ _ => Failed RequestError.

(** A network that serves a points document naming the forecast URL
    ["u"] and then fails. *)
Definition points_only : network :=
  fun n _ =>
    match n with
    | O => Responded
             {| status_code := 200;
                body := Some (JDict [("properties",
                                      JDict [("forecast", JStr "u")])]) |}
    | S _ => Failed RequestError
    end.

Definition null_features : json := JDict [("features", JNull)].
Definition no_features : json := JDict [("features", JList [])].
Definition other_keys : json := JDict [("title", JStr "alerts")].

(** Documents of the JMA shape: reports, each with time series, each
    with areas. *)
Definition area_named (name : string) (weathers : list json) : json :=
  JDict [("area", JDict [("name", JStr name)]); ("weathers", JList weathers)].

Definition area_unnamed (weathers : list json) : json :=
  JDict [("weathers", JList weathers)].

Definition series (areas : list json) : json :=
  JDict [("areas", JList areas)].

Definition report (time_series : list json) : json :=
  JDict [("timeSeries", JList time_series)].

(** [nm] contains one of the preferred location names. *)
Definition name_matches (nm : string) : bool :=
  existsb (fun p => is_substring p nm) preferred_names.

(** An area the first pass cannot take: its name is missing, or is a
    string that contains no preferred name.  What is not a map counts
    too. *)
Definition unmatched (area : json) : bool :=
  match area with
  | JDict d =>
      match get d "area" JNull with
      | JDict info =>
          match get info "name" (JStr "") with
          | JStr nm => negb (name_matches nm)
          | _ => false
          end
      | _ => true
      end
  | _ => true
  end.

Definition unmatched_series (ts : json) : bool :=
  match ts with
  | JDict d =>
      match get d "areas" (JList []) with
      | JList l => forallb unmatched l
      | _ => false
      end
  | _ => true
  end.

Definition unmatched_report (obj : json) : bool :=
  match obj with
  | JDict d =>
      match get d "timeSeries" (JList []) with
      | JList l => forallb unmatched_series l
      | _ => false
      end
  | _ => true
  end.

(** A matching area with an empty first weather entry, alone and
    followed by a time series with another matching area. *)
Definition empty_match_alone : json :=
  JList [report [series [area_named "東京" [JStr ""]]]].

Definition empty_match_then_sunny : json :=
  JList [report [series [area_named "東京" [JStr ""]];
                 series [area_named "Tokyo" [JStr "晴れ"]]]].

(** Unnamed rainy areas at each level before the area named 東京地方, and
    a further match after it. *)
Definition rain_before_tokyo : json :=
  JList [report [series [area_unnamed [JStr "雨"]]];
         report [series [area_unnamed [JStr "雨"]];
                 series [area_unnamed [JStr "雨"];
                         area_named "東京地方" [JStr "晴れ"];
                         area_named "Tokyo" [JStr "雪"]]]].

(** An area the second pass can take a result from: a map whose
    weathers list starts with a truthy entry. *)
Definition has_weather (area : json) : bool :=
  match area with
  | JDict d =>
      match get d "weathers" JNull with
      | JList (w :: _) => truthy w
      | _ => false
      end
  | _ => false
  end.

Definition silent_series (ts : json) : bool :=
  match ts with
  | JDict d =>
      match get d "areas" (JList []) with
      | JList l => forallb (fun a => negb (has_weather a)) l
      | _ => false
      end
  | _ => true
  end.

Definition silent_report (obj : json) : bool :=
  match obj with
  | JDict d =>
      match get d "timeSeries" (JList []) with
      | JList l => forallb silent_series l
      | _ => false
      end
  | _ => true
  end.

(** The only area with weathers comes second in its areas sequence. *)
Definition cloudy_second : json :=
  JList [report [series [JDict [("area", JDict [("name", JStr "千葉")])];
                         area_unnamed [JStr "くもり"]]]].

(** The first area with weathers has an empty first entry. *)
Definition empty_then_cloudy : json :=
  JList [report [series [area_unnamed [JStr ""]];
                 series [area_unnamed [JStr "くもり"]]]].

(** Areas without a usable weather, then a non-map element, then the
    first area with weathers, then more. *)
Definition cloudy_first : json :=
  JList [report [series [area_unnamed []]];
         report [series [area_unnamed [JStr ""]];
                 series [JNull;
                         area_unnamed [JStr "くもり"];
                         area_unnamed [JStr "雨"]]]].

(** A network that serves [points] first and [forecast] afterwards. *)
Definition two_stage (points forecast : json) : network :=
  fun n _ =>
    match n with
    | O => Responded {| status_code := 200; body := Some points |}
    | S _ => Responded {| status_code := 200; body := Some forecast |}
    end.

Definition points_doc : json :=
  JDict [("properties", JDict [("forecast", JStr "u")])].



(** An alert feed whose only feature has no ["properties"]. *)
Definition bare_feature_doc : json := JDict [("features", JList [JDict []])].

Definition empty_properties_doc : json :=
  JDict [("features", JList [JDict [("properties", JDict [])]])].

(** A [for] loop can draw from [v], and [name in v] can be asked: [v] is
    a list, a map or a string. *)
Definition iterable (v : json) : bool :=
  match v with
  | JList _ | JDict _ | JStr _ => true
  | _ => false
  end.

Definition full_period (name : string) : json :=
  JDict [("name", JStr name);
         ("temperature", JStr "60");
         ("temperatureUnit", JStr "F");
         ("windSpeed", JStr "5 mph");
         ("windDirection", JStr "NW");
         ("detailedForecast", JStr "Clear.")].

(** Five periods with all fields and a sixth that is [null]. *)
Definition six_periods : list json :=
  [full_period "Tonight"; full_period "Friday"; full_period "Friday Night";
   full_period "Saturday"; full_period "Saturday Night"; JNull].

Definition six_periods_doc : json :=
  JDict [("properties", JDict [("periods", JList six_periods)])].

(** A report whose time series is a number, before a report with an
    area named 東京. *)
Definition scalar_series_doc : json :=
  JList [JDict [("timeSeries", JInt 5)];
         report [series [area_named "東京" [JStr "晴れ"]]]].

(** An area whose name is a number, before an area named 東京. *)
Definition scalar_name_doc : json :=
  JList [report [series [JDict [("area", JDict [("name", JInt 13)]);
                                ("weathers", JList [JStr "雨"])];
                         area_named "東京" [JStr "晴れ"]]]].

(** Entries that are not maps among the reports. *)
Definition padded_doc : list json :=
  [JNull; report [series [area_unnamed [JStr "くもり"]]]; JStr "x"].

(** * Properties *)

(** C9: [add] returns the binary64 sum of its arguments, and [echo]
    returns its argument unchanged, the empty string included. *)
Theorem add_echo_spec :
  (forall a b : float, ServerPy.add a b = PrimFloat.add a b) /\
  (forall s : string, ServerPy.echo s = s) /\
  ServerPy.echo "" = "".
Proof.
  repeat split.
Qed.

(** ** The fetcher *)

Lemma make_nws_request_run (net : network) (u : json) (tr : list request) :
  make_nws_request net u tr
  = (Ok (payload (net (List.length tr) (nws_request u))),
     (tr ++ [nws_request u])%list).
Proof.
  unfold make_nws_request, try_except, bind, client_get, lift, ret, payload.
  fold (nws_request u).
  destruct (net (List.length tr) (nws_request u)) as [e | r]; [reflexivity |].
  unfold raise_for_status, response_json, success_status.
  destruct ((200 <=? status_code r) && (status_code r <=? 299));
    [| reflexivity].
  destruct (body r); reflexivity.
Qed.

(** C6: whatever the GET does, [make_nws_request] returns a value and
    raises nothing: [None] after a transport error, after a status
    outside 2xx and after a body that is not JSON, and the decoded body of
    a 2xx response otherwise. *)
Theorem make_nws_request_option (net : network) (u : json) (tr : list request) :
  let o := net (List.length tr) (nws_request u) in
  let result := fst (make_nws_request net u tr) in
  (forall e, o = Failed e -> result = Ok JNull) /\
  (forall r, o = Responded r -> success_status r = false ->
             result = Ok JNull) /\
  (forall r, o = Responded r -> success_status r = true -> body r = None ->
             result = Ok JNull) /\
  (forall r v, o = Responded r -> success_status r = true ->
               body r = Some v -> result = Ok v) /\
  (exists v, result = Ok v).
Proof.
  cbv zeta. rewrite make_nws_request_run. cbn [fst].
  split; [| split; [| split; [| split]]].
  - intros e ->. reflexivity.
  - intros r -> H. cbn. rewrite H. reflexivity.
  - intros r -> H Hb. cbn. rewrite H, Hb. reflexivity.
  - intros r v -> H Hb. cbn. rewrite H, Hb. reflexivity.
  - eexists. reflexivity.
Qed.

Lemma make_nws_request_option_witness :
  fst (make_nws_request (fun _ _ => Failed RequestError) (JStr "u") [])
    = Ok JNull /\
  fst (make_nws_request
         (fun _ _ => Responded {| status_code := 404; body := Some (JInt 1) |})
         (JStr "u") [])
    = Ok JNull /\
  fst (make_nws_request
         (fun _ _ => Responded {| status_code := 200; body := None |})
         (JStr "u") [])
    = Ok JNull /\
  fst (make_nws_request (serving (JInt 1)) (JStr "u") []) = Ok (JInt 1).
Proof.
  split; [| split; [| split]].
  - exact (proj1 (make_nws_request_option
                    (fun _ _ => Failed RequestError) (JStr "u") [])
             RequestError eq_refl).
  - exact (proj1 (proj2 (make_nws_request_option
                    (fun _ _ => Responded {| status_code := 404;
                                             body := Some (JInt 1) |})
                    (JStr "u") []))
             _ eq_refl eq_refl).
  - exact (proj1 (proj2 (proj2 (make_nws_request_option
                    (fun _ _ => Responded {| status_code := 200;
                                             body := None |})
                    (JStr "u") [])))
             _ eq_refl eq_refl eq_refl).
  - exact (proj1 (proj2 (proj2 (proj2 (make_nws_request_option
                    (serving (JInt 1)) (JStr "u") []))))
             _ _ eq_refl eq_refl eq_refl).
Defined.

(** ** [get_forecast]: the two stages *)

Lemma bind_run {A B} (m : M A) (k : A -> M B) (tr : list request) :
  bind m k tr
  = match m tr with
    | (Ok a, tr') => k a tr'
    | (Raise e, tr') => (Raise e, tr')
    end.
Proof.
  reflexivity.
Qed.

Lemma lift_run {A B} (r : res A) (k : A -> M B) (tr : list request) :
  bind (lift r) k tr
  = match r with
    | Ok a => k a tr
    | Raise e => (Raise e, tr)
    end.
Proof.
  unfold bind, lift. destruct r; reflexivity.
Qed.

(** What is left of [get_forecast] once both documents are there only
    computes: it sends nothing. *)
Lemma forecast_tail_trace (str_of : json -> string) (forecast_data : json)
    (tr : list request) :
  snd ((properties <<- lift (getitem forecast_data "properties") ;;
        periods <<- lift (getitem properties "periods") ;;
        shown <<- lift (slice_to 5 periods) ;;
        items <<- lift (iter shown) ;;
        forecasts <<- lift (map_res (format_period str_of) items) ;;
        ret (join (LF ++ "---" ++ LF) forecasts)) tr) = tr.
Proof.
  repeat (rewrite lift_run;
          match goal with
          | |- context [match ?r with Ok _ => _ | Raise _ => _ end] =>
              destruct r; [| reflexivity]
          end).
  reflexivity.
Qed.

Lemma get_forecast_first (str_of : json -> string) (net : network)
    (latitude longitude : float) (tr : list request) :
  let rq1 := nws_request (JStr (points_url str_of latitude longitude)) in
  truthy (payload (net (List.length tr) rq1)) = false ->
  get_forecast str_of net latitude longitude tr
  = (Ok UNABLE_POINTS, (tr ++ [rq1])%list).
Proof.
  intros rq1 H. unfold get_forecast, bind.
  fold (points_url str_of latitude longitude).
  rewrite make_nws_request_run. fold rq1. rewrite H. reflexivity.
Qed.

(** C7: when the points fetch yields no data, [get_forecast] sends that
    one request only and returns the stage-one message; when a second
    request is sent and its fetch yields no data, it returns the stage-two
    message, which is a different one. *)
Theorem get_forecast_stage_messages (str_of : json -> string) (net : network)
    (latitude longitude : float) (tr : list request) :
  let rq1 := nws_request (JStr (points_url str_of latitude longitude)) in
  let run := get_forecast str_of net latitude longitude tr in
  (fst (make_nws_request net (url rq1) tr) = Ok JNull ->
   run = (Ok UNABLE_POINTS, (tr ++ [rq1])%list)) /\
  (forall rq2 : request,
     snd run = (tr ++ [rq1; rq2])%list ->
     fst (make_nws_request net (url rq2) (tr ++ [rq1])%list) = Ok JNull ->
     fst run = Ok UNABLE_FORECAST) /\
  UNABLE_POINTS <> UNABLE_FORECAST.
Proof.
  intros rq1 run. split; [| split].
  - rewrite make_nws_request_run. cbn [fst url rq1 nws_request].
    intros H. injection H as H. subst run.
    apply get_forecast_first. fold (nws_request (JStr (points_url str_of latitude longitude))).
    rewrite H. reflexivity.
  - intros rq2. subst run. unfold get_forecast.
    fold (points_url str_of latitude longitude).
    rewrite bind_run, make_nws_request_run. fold rq1.
    destruct (truthy (payload (net (List.length tr) rq1))); cbn [negb].
    2:{ cbn. intros H. apply app_inv_head in H. discriminate H. }
    rewrite lift_run.
    destruct (getitem (payload (net (List.length tr) rq1)) "properties")
      as [properties | e].
    2:{ cbn. intros H. apply app_inv_head in H. discriminate H. }
    rewrite lift_run.
    destruct (getitem properties "forecast") as [forecast_url | e].
    2:{ cbn. intros H. apply app_inv_head in H. discriminate H. }
    rewrite bind_run, make_nws_request_run.
    set (d2 := payload _).
    destruct (truthy d2) eqn:Ht; cbn [negb]; [| reflexivity].
    rewrite forecast_tail_trace. intros Htr Hsecond.
    rewrite <- app_assoc in Htr. apply app_inv_head in Htr.
    injection Htr as Htr. subst rq2.
    rewrite make_nws_request_run in Hsecond.
    cbn [fst url nws_request] in Hsecond.
    injection Hsecond as Hsecond.
    fold (nws_request forecast_url) in Hsecond. fold d2 in Hsecond.
    rewrite Hsecond in Ht. discriminate Ht.
  - discriminate.
Qed.

(** ** [get_alerts]: the two literal messages *)

Lemma chars_nonempty (s : string) : s <> EmptyString -> chars s <> [].
Proof.
  destruct s as [| c rest]; [congruence |]. intros _.
  unfold chars. cbn [split_chars].
  destruct (split_chars rest) as [k cs].
  destruct (is_continuation c); discriminate.
Qed.

Lemma iter_truthy (v : json) (items : list json) :
  truthy v = true -> iter v = Ok items -> items <> [].
Proof.
  destruct v as [| b | n | f | s | l | d]; cbn; intros Ht Hi;
    try discriminate Hi; injection Hi as <-.
  - destruct s as [| c rest]; [discriminate Ht |].
    intros H. apply map_eq_nil in H. revert H.
    apply chars_nonempty. discriminate.
  - destruct l; [discriminate Ht | discriminate].
  - destruct d; [discriminate Ht | discriminate].
Qed.

Lemma format_alert_newline (str_of : json -> string) (feature : json)
    (s : string) :
  format_alert str_of feature = Ok s -> exists t, s = String "010"%char t.
Proof.
  unfold format_alert. intros H.
  repeat match type of H with
         | res_bind ?r _ = Ok _ =>
             destruct r; cbn [res_bind] in H; [| discriminate H]
         end.
  injection H as <-. eexists. reflexivity.
Qed.

Lemma alerts_text_newline (str_of : json -> string) (sep : string)
    (items : list json) (alerts : list string) :
  items <> [] ->
  map_res (format_alert str_of) items = Ok alerts ->
  exists t, join sep alerts = String "010"%char t.
Proof.
  destruct items as [| x rest]; [congruence |]. intros _. cbn [map_res].
  destruct (format_alert str_of x) as [s |] eqn:Hx; cbn [res_bind];
    [| discriminate].
  destruct (map_res (format_alert str_of) rest) as [ys |]; cbn [res_bind];
    [| discriminate].
  intros H. injection H as <-.
  apply format_alert_newline in Hx. destruct Hx as [t ->].
  unfold join. destruct ys; cbn; eexists; reflexivity.
Qed.

(** How a run of [get_alerts] ends, by the document [data] the fetch
    yields. *)
Lemma get_alerts_cases (str_of : json -> string) (net : network)
    (state : string) (tr : list request) :
  let data := payload (net (List.length tr) (nws_request (JStr (alerts_url state)))) in
  let result := fst (get_alerts str_of net state tr) in
  (truthy data = false /\ result = Ok UNABLE_ALERTS) \/
  (truthy data = true /\ contains data "features" = Ok false /\
   result = Ok UNABLE_ALERTS) \/
  (truthy data = true /\
   exists d v, data = JDict d /\ lookup "features" d = Some v /\
               truthy v = false /\ result = Ok NO_ALERTS) \/
  (truthy data = true /\ contains data "features" <> Ok false /\
   (forall d v, data = JDict d -> lookup "features" d = Some v ->
                truthy v = true) /\
   ((exists e, result = Raise e) \/
    (exists t, result = Ok (String "010"%char t)))).
Proof.
  intros data result. subst result. unfold get_alerts.
  fold (alerts_url state). rewrite bind_run, make_nws_request_run.
  fold data. rewrite lift_run.
  destruct (truthy data) eqn:Ht; cbn [negb]; [| left; split; reflexivity].
  right.
  destruct data as [| b | n | f | s | l | d] eqn:Hd; cbn [contains res_bind];
    try (right; right; split; [reflexivity |];
         split; [discriminate |]; split; [discriminate |];
         left; eexists; reflexivity).
  - destruct (is_substring "features" s) eqn:Hs; cbn [negb].
    + right; right. split; [reflexivity |]. split; [discriminate |].
      split; [discriminate |]. left. eexists. reflexivity.
    + left. repeat split; reflexivity.
  - destruct (existsb (is_str "features") l) eqn:Hs; cbn [negb].
    + right; right. split; [reflexivity |]. split; [discriminate |].
      split; [discriminate |]. left. eexists. reflexivity.
    + left. repeat split; reflexivity.
  - destruct (lookup "features" d) as [v |] eqn:Hl; cbn [negb].
    2:{ left. repeat split; reflexivity. }
    right. rewrite lift_run. cbn [getitem]. rewrite Hl.
    destruct (truthy v) eqn:Hv; cbn [negb].
    + right. split; [reflexivity |]. split; [discriminate |].
      split.
      { intros d0 v0 H0 Hl0. injection H0 as <-. rewrite Hl in Hl0.
        injection Hl0 as <-. exact Hv. }
      rewrite !lift_run.
      destruct (iter v) as [items |] eqn:Hi; [| left; eexists; reflexivity].
      rewrite lift_run.
      destruct (map_res (format_alert str_of) items) as [alerts |] eqn:Hm;
        [| left; eexists; reflexivity].
      right. cbn [ret fst].
      destruct (alerts_text_newline str_of (LF ++ "---" ++ LF) items alerts)
        as [t Hj]; [eapply iter_truthy; eassumption | exact Hm |].
      exists t. rewrite Hj. reflexivity.
    + left. split; [reflexivity |]. exists d, v. repeat split; assumption.
Qed.

Lemma get_forecast_stage_messages_witness :
  get_forecast plain_str unreachable 35%float 139%float []
    = (Ok UNABLE_POINTS,
       [nws_request (JStr (points_url plain_str 35%float 139%float))]) /\
  fst (get_forecast plain_str points_only 35%float 139%float [])
    = Ok UNABLE_FORECAST.
Proof.
  split.
  - exact (proj1 (get_forecast_stage_messages
                    plain_str unreachable 35%float 139%float [])
             eq_refl).
  - exact (proj1 (proj2 (get_forecast_stage_messages
                           plain_str points_only 35%float 139%float []))
             (nws_request (JStr "u")) eq_refl eq_refl).
Defined.

(** C8, as stated, fails: with ["features"] mapped to [null], which is
    not an empty sequence, the call returns the no-active-alerts message;
    and on the document [5], which has no ["features"] key, it raises
    instead of returning the unable-to-fetch message. *)
Lemma get_alerts_messages_not_exact :
  (fst (get_alerts plain_str (serving null_features) "ZZ" []) = Ok NO_ALERTS /\
   getitem null_features "features" = Ok JNull /\
   is_list JNull = false) /\
  (fst (make_nws_request (serving (JInt 5)) (JStr (alerts_url "ZZ")) [])
     = Ok (JInt 5) /\
   is_dict (JInt 5) = false /\
   fst (get_alerts plain_str (serving (JInt 5)) "ZZ" []) = Raise TypeError).
Proof.
  repeat split.
Qed.

(** C8, amended: [get_alerts] returns the no-active-alerts message
    exactly when the fetch yields a map whose ["features"] entry is falsy
    (an empty sequence, and also [null], [false], zero, an empty string or
    an empty map), and the unable-to-fetch message exactly when the fetch
    yields no data or another falsy value, or a map, sequence or string
    that does not contain ["features"]. *)
Theorem get_alerts_messages (str_of : json -> string) (net : network)
    (state : string) (tr : list request) (data : json) :
  fst (make_nws_request net (JStr (alerts_url state)) tr) = Ok data ->
  let result := fst (get_alerts str_of net state tr) in
  (result = Ok NO_ALERTS <->
   exists d v, data = JDict d /\ lookup "features" d = Some v /\
               truthy v = false) /\
  (result = Ok UNABLE_ALERTS <->
   truthy data = false \/ contains data "features" = Ok false).
Proof.
  intros Hdata result. rewrite make_nws_request_run in Hdata.
  cbn [fst] in Hdata. injection Hdata as Hdata.
  pose proof (get_alerts_cases str_of net state tr) as H.
  cbv zeta in H. rewrite Hdata in H. fold result in H.
  destruct H as [[Ht Hr] | [[Ht [Hc Hr]] | [[Ht H] | [Ht [Hc [Hv Hr]]]]]].
  - rewrite Hr. split; split.
    + discriminate.
    + intros [d [v [-> [Hl _]]]]. destruct d; discriminate.
    + intros _. left. exact Ht.
    + reflexivity.
  - rewrite Hr. split; split.
    + discriminate.
    + intros [d [v [-> [Hl _]]]]. cbn in Hc. rewrite Hl in Hc.
      discriminate Hc.
    + intros _. right. exact Hc.
    + reflexivity.
  - destruct H as [d [v [-> [Hl [Hv Hr]]]]]. rewrite Hr. split; split.
    + intros _. exists d, v. repeat split; assumption.
    + reflexivity.
    + discriminate.
    + intros [H | H]; [rewrite Ht in H; discriminate H |].
      cbn in H. rewrite Hl in H. discriminate H.
  - assert (Hno : result <> Ok NO_ALERTS /\ result <> Ok UNABLE_ALERTS).
    { destruct Hr as [[e ->] | [t ->]]; split; discriminate. }
    destruct Hno as [Hn Hu]. split; split.
    + intros H. contradiction.
    + intros [d [v [-> [Hl Hf]]]].
      rewrite (Hv d v eq_refl Hl) in Hf. discriminate Hf.
    + intros H. contradiction.
    + intros [H | H]; [rewrite Ht in H; discriminate H | contradiction].
Qed.

Lemma get_alerts_messages_witness :
  (fst (get_alerts plain_str (serving no_features) "ZZ" []) = Ok NO_ALERTS) /\
  (fst (get_alerts plain_str unreachable "ZZ" []) = Ok UNABLE_ALERTS) /\
  (fst (get_alerts plain_str (serving other_keys) "ZZ" []) = Ok UNABLE_ALERTS).
Proof.
  split; [| split].
  - apply (proj1 (get_alerts_messages plain_str (serving no_features)
                    "ZZ" [] no_features eq_refl)).
    exists [("features", JList [])], (JList []). repeat split.
  - apply (proj2 (get_alerts_messages plain_str unreachable
                    "ZZ" [] JNull eq_refl)).
    left. reflexivity.
  - apply (proj2 (get_alerts_messages plain_str (serving other_keys)
                    "ZZ" [] other_keys eq_refl)).
    right. reflexivity.
Defined.

(** ** [get_tokyo_weather] *)

Lemma get_tokyo_weather_run (str_of : json -> string) (net : network)
    (tr : list request) :
  get_tokyo_weather str_of net tr
  = (Ok match net (List.length tr) jma_request with
        | Failed _ => TOKYO_UNAVAILABLE
        | Responded r =>
            if success_status r
            then match body r with
                 | Some data => tokyo_text str_of data
                 | None => TOKYO_UNAVAILABLE
                 end
            else TOKYO_UNAVAILABLE
        end,
     (tr ++ [jma_request])%list).
Proof.
  unfold get_tokyo_weather, try_except, bind, client_get, lift, ret.
  fold jma_request.
  destruct (net (List.length tr) jma_request) as [e | r]; [reflexivity |].
  unfold raise_for_status, response_json, success_status, tokyo_text.
  destruct ((200 <=? status_code r) && (status_code r <=? 299));
    [| reflexivity].
  destruct (body r) as [data |]; [| reflexivity].
  destruct (resolve data) as [w | e]; [| reflexivity].
  destruct (truthy w); reflexivity.
Qed.



Lemma tokyo_text_cases (str_of : json -> string) (data : json) :
  (tokyo_text str_of data = TOKYO_UNAVAILABLE /\
   forall w, resolve data = Ok w -> truthy w = false) \/
  (exists w, resolve data = Ok w /\ truthy w = true /\
             tokyo_text str_of data = TOKYO_PREFIX ++ format str_of w).
Proof.
  unfold tokyo_text. destruct (resolve data) as [w | e].
  - destruct (truthy w) eqn:Ht.
    + right. exists w. repeat split. exact Ht.
    + left. split; [reflexivity |]. intros w' H. injection H as <-. exact Ht.
  - left. split; [reflexivity |]. discriminate.
Qed.

(** ** The first pass *)

Lemma any_in_str (names : list string) (nm : string) :
  any_in names (JStr nm) = Ok (existsb (fun p => is_substring p nm) names).
Proof.
  induction names as [| p rest IH]; [reflexivity |].
  cbn [any_in contains res_bind existsb].
  destruct (is_substring p nm); [reflexivity | exact IH].
Qed.

Lemma get_found (d : list (string * json)) (key : string) (v default : json) :
  lookup key d = Some v -> get d key default = v.
Proof.
  unfold get. intros ->. reflexivity.
Qed.

Lemma preferred_area_match (bd info : list (string * json)) (nm : string)
    (w : json) (ws : list json) :
  lookup "weathers" bd = Some (JList (w :: ws)) ->
  lookup "area" bd = Some (JDict info) ->
  lookup "name" info = Some (JStr nm) ->
  name_matches nm = true ->
  preferred_area (JDict bd) = Ok (Some w).
Proof.
  intros Hw Ha Hn Hm. unfold preferred_area.
  cbn [is_dict negb dict_get res_bind].
  rewrite (get_found _ _ _ _ Hw). cbn [is_list truthy negb orb].
  rewrite !(get_found _ _ _ _ Ha). cbn [is_dict dict_get res_bind].
  rewrite (get_found _ _ _ _ Hn). rewrite any_in_str.
  fold (name_matches nm). rewrite Hm. reflexivity.
Qed.

Lemma preferred_areas_skip (l1 l2 : list json) (tw : json) :
  Forall (fun a => preferred_area a = Ok None) l1 ->
  preferred_areas (l1 ++ l2) tw = preferred_areas l2 tw.
Proof.
  induction 1 as [| a l1 Ha _ IH]; [reflexivity |].
  cbn [app preferred_areas]. rewrite Ha. exact IH.
Qed.

Lemma preferred_series_resume (l1 l2 : list json) (tw tw1 : json) :
  preferred_series l1 tw = Ok tw1 -> truthy tw1 = false ->
  preferred_series (l1 ++ l2) tw = preferred_series l2 tw1.
Proof.
  revert tw. induction l1 as [| ts l1 IH]; intros tw H Hf.
  - injection H as ->. reflexivity.
  - cbn [app preferred_series] in *.
    destruct (if is_dict ts then dict_get ts "areas" (JList [])
              else Ok (JList [])) as [areas |]; [| discriminate H].
    cbn [res_bind] in *.
    destruct (iter areas) as [items |]; [| discriminate H].
    cbn [res_bind] in *.
    destruct (preferred_areas items tw) as [tw' |]; [| discriminate H].
    cbn [res_bind] in *.
    destruct (truthy tw') eqn:Ht.
    + injection H as ->. rewrite Ht in Hf. discriminate Hf.
    + apply IH; assumption.
Qed.

Lemma preferred_reports_resume (l1 l2 : list json) (tw tw1 : json) :
  preferred_reports l1 tw = Ok tw1 -> truthy tw1 = false ->
  preferred_reports (l1 ++ l2) tw = preferred_reports l2 tw1.
Proof.
  revert tw. induction l1 as [| obj l1 IH]; intros tw H Hf.
  - injection H as ->. reflexivity.
  - cbn [app preferred_reports] in *.
    destruct (if is_dict obj then dict_get obj "timeSeries" (JList [])
              else Ok (JList [])) as [time_series |]; [| discriminate H].
    cbn [res_bind] in *.
    destruct (iter time_series) as [items |]; [| discriminate H].
    cbn [res_bind] in *.
    destruct (preferred_series items tw) as [tw' |]; [| discriminate H].
    cbn [res_bind] in *.
    destruct (truthy tw') eqn:Ht.
    + injection H as ->. rewrite Ht in Hf. discriminate Hf.
    + apply IH; assumption.
Qed.

Lemma preferred_area_unmatched (area : json) :
  unmatched area = true -> preferred_area area = Ok None.
Proof.
  unfold preferred_area.
  destruct area as [| b | n | f | s | l | d]; try reflexivity.
  cbn [unmatched is_dict negb dict_get res_bind].
  destruct (negb (is_list (get d "weathers" JNull))
            || negb (truthy (get d "weathers" JNull))); [reflexivity |].
  destruct (lookup "area" d) as [a |] eqn:Ha.
  - rewrite !(get_found _ _ _ _ Ha).
    destruct a as [| b | n | f | s | l | info]; try reflexivity.
    cbn [is_dict dict_get res_bind].
    destruct (get info "name" (JStr "")) as [| b | n | f | nm | l | i];
      try discriminate.
    intros H. rewrite any_in_str. fold (name_matches nm).
    apply negb_true_iff in H. rewrite H. reflexivity.
  - unfold get. rewrite Ha. reflexivity.
Qed.

Lemma preferred_areas_unmatched (l : list json) (tw : json) :
  forallb unmatched l = true -> preferred_areas l tw = Ok tw.
Proof.
  induction l as [| a l IH]; [reflexivity |].
  cbn [forallb preferred_areas]. intros H.
  apply andb_true_iff in H. destruct H as [Ha Hl].
  rewrite (preferred_area_unmatched _ Ha). exact (IH Hl).
Qed.

Lemma preferred_series_unmatched (l : list json) (tw : json) :
  forallb unmatched_series l = true -> preferred_series l tw = Ok tw.
Proof.
  induction l as [| ts l IH]; [reflexivity |].
  cbn [forallb preferred_series]. intros H.
  apply andb_true_iff in H. destruct H as [Hts Hl].
  assert (Hstep : (areas <- (if is_dict ts then dict_get ts "areas" (JList [])
                             else Ok (JList [])) ;;
                   items <- iter areas ;; preferred_areas items tw) = Ok tw).
  { destruct ts as [| b | n | f | s | l0 | d]; try reflexivity.
    cbn [unmatched_series] in Hts. cbn [is_dict dict_get res_bind].
    destruct (get d "areas" (JList [])) as [| b | n | f | s | items | i];
      try discriminate Hts.
    cbn [iter res_bind]. apply preferred_areas_unmatched. exact Hts. }
  destruct (if is_dict ts then dict_get ts "areas" (JList [])
            else Ok (JList [])) as [areas |]; [| discriminate Hstep].
  cbn [res_bind] in *.
  destruct (iter areas) as [items |]; [| discriminate Hstep].
  cbn [res_bind] in *. rewrite Hstep. cbn [res_bind].
  destruct (truthy tw); [reflexivity | exact (IH Hl)].
Qed.

Lemma preferred_reports_unmatched (l : list json) (tw : json) :
  forallb unmatched_report l = true -> preferred_reports l tw = Ok tw.
Proof.
  induction l as [| obj l IH]; [reflexivity |].
  cbn [forallb preferred_reports]. intros H.
  apply andb_true_iff in H. destruct H as [Hobj Hl].
  assert (Hstep : (time_series <-
                     (if is_dict obj then dict_get obj "timeSeries" (JList [])
                      else Ok (JList [])) ;;
                   items <- iter time_series ;; preferred_series items tw)
                  = Ok tw).
  { destruct obj as [| b | n | f | s | l0 | d]; try reflexivity.
    cbn [unmatched_report] in Hobj. cbn [is_dict dict_get res_bind].
    destruct (get d "timeSeries" (JList [])) as [| b | n | f | s | items | i];
      try discriminate Hobj.
    cbn [iter res_bind]. apply preferred_series_unmatched. exact Hobj. }
  destruct (if is_dict obj then dict_get obj "timeSeries" (JList [])
            else Ok (JList [])) as [time_series |]; [| discriminate Hstep].
  cbn [res_bind] in *.
  destruct (iter time_series) as [items |]; [| discriminate Hstep].
  cbn [res_bind] in *. rewrite Hstep. cbn [res_bind].
  destruct (truthy tw); [reflexivity | exact (IH Hl)].
Qed.

Section FirstMatch.

(** A document cut at an area [JDict bd]: the reports, the time series
    and the areas before it, and whatever follows it at each of the three
    levels. *)
Variables objs_before objs_after ts_before ts_after a_before a_after
  : list json.
Variables obj_d ts_d bd info : list (string * json).
Variable nm : string.
Variable w : json.
Variable ws : list json.

Hypothesis obj_series :
  lookup "timeSeries" obj_d = Some (JList (ts_before ++ JDict ts_d :: ts_after)).
Hypothesis ts_areas :
  lookup "areas" ts_d = Some (JList (a_before ++ JDict bd :: a_after)).
Hypothesis area_weathers : lookup "weathers" bd = Some (JList (w :: ws)).
Hypothesis area_info : lookup "area" bd = Some (JDict info).
Hypothesis area_name : lookup "name" info = Some (JStr nm).
Hypothesis name_preferred : name_matches nm = true.
Hypothesis weather_truthy : truthy w = true.

Lemma preferred_reports_reach (tw0 tw1 tw2 : json) :
  preferred_reports objs_before tw0 = Ok tw1 -> truthy tw1 = false ->
  preferred_series ts_before tw1 = Ok tw2 -> truthy tw2 = false ->
  Forall (fun a => preferred_area a = Ok None) a_before ->
  preferred_reports (objs_before ++ JDict obj_d :: objs_after) tw0 = Ok w.
Proof.
  intros H1 Hf1 H2 Hf2 H3.
  rewrite (preferred_reports_resume _ _ _ _ H1 Hf1).
  cbn [preferred_reports is_dict dict_get res_bind].
  rewrite (get_found _ _ _ _ obj_series). cbn [iter res_bind].
  rewrite (preferred_series_resume _ _ _ _ H2 Hf2).
  cbn [preferred_series is_dict dict_get res_bind].
  rewrite (get_found _ _ _ _ ts_areas). cbn [iter res_bind].
  rewrite (preferred_areas_skip _ _ _ H3).
  cbn [preferred_areas].
  rewrite (preferred_area_match _ _ _ _ _
             area_weathers area_info area_name name_preferred).
  cbn [res_bind]. rewrite weather_truthy. cbn [res_bind].
  rewrite weather_truthy. reflexivity.
Qed.

(** C3, amended: when the first pass reaches an area whose name contains
    a preferred name and whose weathers sequence starts with a truthy
    entry, that entry is the result of the pass; the three loops stop, so
    the result is the same whatever follows the area in its areas
    sequence, in the time series and in the reports. *)
Theorem preferred_pass_stops_at_match (tw1 tw2 : json) :
  preferred_reports objs_before JNull = Ok tw1 -> truthy tw1 = false ->
  preferred_series ts_before tw1 = Ok tw2 -> truthy tw2 = false ->
  Forall (fun a => preferred_area a = Ok None) a_before ->
  preferred_pass (JList (objs_before ++ JDict obj_d :: objs_after)) = Ok w.
Proof.
  intros H1 Hf1 H2 Hf2 H3. cbn [preferred_pass].
  exact (preferred_reports_reach JNull tw1 tw2 H1 Hf1 H2 Hf2 H3).
Qed.


End FirstMatch.

(** C3, as stated, fails: the area named 東京 with weathers [[""]] is
    matched, yet the time-series loop goes on; the result of the pass is
    taken from the next time series and not from that area. *)
Lemma preferred_pass_goes_on_after_empty :
  preferred_area (area_named "東京" [JStr ""]) = Ok (Some (JStr "")) /\
  preferred_pass empty_match_alone = Ok (JStr "") /\
  preferred_pass empty_match_then_sunny = Ok (JStr "晴れ").
Proof.
  repeat split.
Qed.

Lemma preferred_pass_stops_at_match_witness :
  preferred_pass rain_before_tokyo = Ok (JStr "晴れ").
Proof.
  refine (preferred_pass_stops_at_match
           [report [series [area_unnamed [JStr "雨"]]]] []
           [series [area_unnamed [JStr "雨"]]] []
           [area_unnamed [JStr "雨"]] [area_named "Tokyo" [JStr "雪"]]
           [("timeSeries",
             JList [series [area_unnamed [JStr "雨"]];
                    series [area_unnamed [JStr "雨"];
                            area_named "東京地方" [JStr "晴れ"];
                            area_named "Tokyo" [JStr "雪"]]])]
           [("areas",
             JList [area_unnamed [JStr "雨"];
                    area_named "東京地方" [JStr "晴れ"];
                    area_named "Tokyo" [JStr "雪"]])]
           [("area", JDict [("name", JStr "東京地方")]);
            ("weathers", JList [JStr "晴れ"])]
           [("name", JStr "東京地方")] "東京地方" (JStr "晴れ") []
           eq_refl eq_refl eq_refl eq_refl eq_refl eq_refl eq_refl
           JNull JNull eq_refl eq_refl eq_refl eq_refl _).
  constructor; [reflexivity | constructor].
Defined.


(** ** The second pass *)

Lemma fallback_areas_skip (l1 l2 : list json) (tw : json) :
  forallb (fun a => negb (is_dict a)) l1 = true ->
  fallback_areas (l1 ++ l2) tw = fallback_areas l2 tw.
Proof.
  induction l1 as [| a l1 IH]; [reflexivity |].
  cbn [forallb app fallback_areas]. intros H.
  apply andb_true_iff in H. destruct H as [Ha Hl].
  apply negb_true_iff in Ha. rewrite Ha. exact (IH Hl).
Qed.

Lemma fallback_areas_silent (l : list json) (tw : json) :
  forallb (fun a => negb (has_weather a)) l = true -> truthy tw = false ->
  exists tw', fallback_areas l tw = Ok tw' /\ truthy tw' = false.
Proof.
  intros H Hf. induction l as [| a l IH];
    [exists tw; split; [reflexivity | assumption] |].
  cbn [forallb] in H. apply andb_true_iff in H. destruct H as [Ha Hl].
  cbn [fallback_areas].
  destruct a as [| b | n | f | s | l0 | d]; cbn [is_dict];
    try (apply IH; exact Hl).
  cbn [dict_get res_bind]. cbn [has_weather] in Ha.
  destruct (get d "weathers" JNull) as [| b | n | f | s | [| x xs] | i];
    cbn [is_list truthy andb];
    try (exists tw; split; [reflexivity | assumption]).
  cbn [item0]. exists x. split; [reflexivity |].
  apply negb_true_iff in Ha. exact Ha.
Qed.

Lemma fallback_series_silent (l : list json) (tw : json) :
  forallb silent_series l = true -> truthy tw = false ->
  exists tw', fallback_series l tw = Ok tw' /\ truthy tw' = false.
Proof.
  revert tw. induction l as [| ts l IH]; intros tw H Hf;
    [exists tw; split; [reflexivity | assumption] |].
  cbn [forallb] in H. apply andb_true_iff in H. destruct H as [Hts Hl].
  cbn [fallback_series].
  assert (Hstep : exists tw',
             (areas <- (if is_dict ts then dict_get ts "areas" (JList [])
                        else Ok (JList [])) ;;
              items <- iter areas ;; fallback_areas items tw) = Ok tw'
             /\ truthy tw' = false).
  { destruct ts as [| b | n | f | s | l0 | d];
      try (exists tw; split; [reflexivity | assumption]).
    cbn [silent_series] in Hts. cbn [is_dict dict_get res_bind].
    destruct (get d "areas" (JList [])) as [| b | n | f | s | items | i];
      try discriminate Hts.
    cbn [iter res_bind]. apply fallback_areas_silent; assumption. }
  destruct Hstep as [tw' [Hstep Hf']].
  destruct (if is_dict ts then dict_get ts "areas" (JList [])
            else Ok (JList [])) as [areas |]; [| discriminate Hstep].
  cbn [res_bind] in *.
  destruct (iter areas) as [items |]; [| discriminate Hstep].
  cbn [res_bind] in *. rewrite Hstep. cbn [res_bind]. rewrite Hf'.
  apply IH; assumption.
Qed.

Lemma fallback_reports_silent (l : list json) (tw : json) :
  forallb silent_report l = true -> truthy tw = false ->
  exists tw', fallback_reports l tw = Ok tw' /\ truthy tw' = false.
Proof.
  revert tw. induction l as [| obj l IH]; intros tw H Hf;
    [exists tw; split; [reflexivity | assumption] |].
  cbn [forallb] in H. apply andb_true_iff in H. destruct H as [Hobj Hl].
  cbn [fallback_reports].
  assert (Hstep : exists tw',
             (time_series <-
                (if is_dict obj then dict_get obj "timeSeries" (JList [])
                 else Ok (JList [])) ;;
              items <- iter time_series ;; fallback_series items tw) = Ok tw'
             /\ truthy tw' = false).
  { destruct obj as [| b | n | f | s | l0 | d];
      try (exists tw; split; [reflexivity | assumption]).
    cbn [silent_report] in Hobj. cbn [is_dict dict_get res_bind].
    destruct (get d "timeSeries" (JList [])) as [| b | n | f | s | items | i];
      try discriminate Hobj.
    cbn [iter res_bind]. apply fallback_series_silent; assumption. }
  destruct Hstep as [tw' [Hstep Hf']].
  destruct (if is_dict obj then dict_get obj "timeSeries" (JList [])
            else Ok (JList [])) as [time_series |]; [| discriminate Hstep].
  cbn [res_bind] in *.
  destruct (iter time_series) as [items |]; [| discriminate Hstep].
  cbn [res_bind] in *. rewrite Hstep. cbn [res_bind]. rewrite Hf'.
  apply IH; assumption.
Qed.

Lemma fallback_series_resume (l1 l2 : list json) (tw tw1 : json) :
  fallback_series l1 tw = Ok tw1 -> truthy tw1 = false ->
  fallback_series (l1 ++ l2) tw = fallback_series l2 tw1.
Proof.
  revert tw. induction l1 as [| ts l1 IH]; intros tw H Hf.
  - injection H as ->. reflexivity.
  - cbn [app fallback_series] in *.
    destruct (if is_dict ts then dict_get ts "areas" (JList [])
              else Ok (JList [])) as [areas |]; [| discriminate H].
    cbn [res_bind] in *.
    destruct (iter areas) as [items |]; [| discriminate H].
    cbn [res_bind] in *.
    destruct (fallback_areas items tw) as [tw' |]; [| discriminate H].
    cbn [res_bind] in *.
    destruct (truthy tw') eqn:Ht.
    + injection H as ->. rewrite Ht in Hf. discriminate Hf.
    + apply IH; assumption.
Qed.

Lemma fallback_reports_resume (l1 l2 : list json) (tw tw1 : json) :
  fallback_reports l1 tw = Ok tw1 -> truthy tw1 = false ->
  fallback_reports (l1 ++ l2) tw = fallback_reports l2 tw1.
Proof.
  revert tw. induction l1 as [| obj l1 IH]; intros tw H Hf.
  - injection H as ->. reflexivity.
  - cbn [app fallback_reports] in *.
    destruct (if is_dict obj then dict_get obj "timeSeries" (JList [])
              else Ok (JList [])) as [time_series |]; [| discriminate H].
    cbn [res_bind] in *.
    destruct (iter time_series) as [items |]; [| discriminate H].
    cbn [res_bind] in *.
    destruct (fallback_series items tw) as [tw' |]; [| discriminate H].
    cbn [res_bind] in *.
    destruct (truthy tw') eqn:Ht.
    + injection H as ->. rewrite Ht in Hf. discriminate Hf.
    + apply IH; assumption.
Qed.

Section FirstWeather.

(** A document cut at an area [JDict ad] that carries weathers. *)
Variables objs_before objs_after ts_before ts_after a_before a_after
  : list json.
Variables obj_d ts_d ad : list (string * json).
Variable w : json.
Variable ws : list json.

Hypothesis obj_series :
  lookup "timeSeries" obj_d = Some (JList (ts_before ++ JDict ts_d :: ts_after)).
Hypothesis ts_areas :
  lookup "areas" ts_d = Some (JList (a_before ++ JDict ad :: a_after)).
Hypothesis area_weathers : lookup "weathers" ad = Some (JList (w :: ws)).
Hypothesis weather_truthy : truthy w = true.

(** C2, amended: when the first pass ends with nothing truthy, no area
    before [JDict ad] in document order has a weathers list with a truthy
    first entry, and [JDict ad] is the first map in its areas sequence,
    the second pass returns the first weather entry of [JDict ad], which
    is truthy. *)
Theorem fallback_takes_first_weather (tw : json) :
  let data := JList (objs_before ++ JDict obj_d :: objs_after) in
  preferred_pass data = Ok tw -> truthy tw = false ->
  forallb silent_report objs_before = true ->
  forallb silent_series ts_before = true ->
  forallb (fun a => negb (is_dict a)) a_before = true ->
  fallback_pass data tw = Ok w /\ resolve data = Ok w.
Proof.
  intros data Hp Hf H1 H2 H3.
  assert (Hfb : fallback_pass data tw = Ok w).
  { unfold fallback_pass, data. rewrite Hf. cbn [negb is_list andb].
    destruct (fallback_reports_silent objs_before tw H1 Hf) as [tw1 [E1 Hf1]].
    rewrite (fallback_reports_resume _ _ _ _ E1 Hf1).
    cbn [fallback_reports is_dict dict_get res_bind].
    rewrite (get_found _ _ _ _ obj_series). cbn [iter res_bind].
    destruct (fallback_series_silent ts_before tw1 H2 Hf1) as [tw2 [E2 Hf2]].
    rewrite (fallback_series_resume _ _ _ _ E2 Hf2).
    cbn [fallback_series is_dict dict_get res_bind].
    rewrite (get_found _ _ _ _ ts_areas). cbn [iter res_bind].
    rewrite (fallback_areas_skip _ _ _ H3).
    cbn [fallback_areas is_dict dict_get res_bind].
    rewrite (get_found _ _ _ _ area_weathers).
    cbn [is_list truthy andb item0 res_bind].
    rewrite weather_truthy. cbn [res_bind]. rewrite weather_truthy.
    reflexivity. }
  split; [exact Hfb |].
  unfold resolve. rewrite Hp. exact Hfb.
Qed.

End FirstWeather.

(** C2, as stated, fails twice.  In [cloudy_second] the first pass finds
    nothing and one area has weathers [["くもり"]], but it is the second
    map of its areas sequence and the second pass leaves the sequence
    after the first: nothing is found.  In [empty_then_cloudy] the first
    area with a non-empty weathers list has the first entry [""], and the
    second pass returns the entry of a later area. *)
Lemma fallback_misses_or_passes_over :
  (preferred_pass cloudy_second = Ok JNull /\
   fallback_pass cloudy_second JNull = Ok JNull /\
   fst (get_tokyo_weather plain_str (serving cloudy_second) [])
     = Ok TOKYO_UNAVAILABLE) /\
  (preferred_pass empty_then_cloudy = Ok JNull /\
   fallback_pass empty_then_cloudy JNull = Ok (JStr "くもり")).
Proof.
  repeat split.
Qed.

Lemma fallback_takes_first_weather_witness :
  fallback_pass cloudy_first JNull = Ok (JStr "くもり") /\
  resolve cloudy_first = Ok (JStr "くもり").
Proof.
  exact (fallback_takes_first_weather
           [report [series [area_unnamed []]]] []
           [series [area_unnamed [JStr ""]]] []
           [JNull] [area_unnamed [JStr "雨"]]
           [("timeSeries",
             JList [series [area_unnamed [JStr ""]];
                    series [JNull;
                            area_unnamed [JStr "くもり"];
                            area_unnamed [JStr "雨"]]])]
           [("areas",
             JList [JNull;
                    area_unnamed [JStr "くもり"];
                    area_unnamed [JStr "雨"]])]
           [("weathers", JList [JStr "くもり"])]
           (JStr "くもり") []
           eq_refl eq_refl eq_refl eq_refl
           JNull eq_refl eq_refl eq_refl eq_refl eq_refl).
Defined.

(** ** Success means a truthy weather *)








(** ** Failures: what the handlers absorb and what they let through *)

Lemma failed_fetch_payload (o : outcome) :
  failed_fetch o = true -> payload o = JNull.
Proof.
  destruct o as [e | r]; [reflexivity |]. cbn [failed_fetch payload].
  destruct (success_status r); [| reflexivity].
  destruct (body r); [discriminate | reflexivity].
Qed.

Lemma get_tokyo_weather_total (str_of : json -> string) (net : network)
    (tr : list request) :
  fst (get_tokyo_weather str_of net tr) = Ok TOKYO_UNAVAILABLE \/
  exists w, truthy w = true /\
    fst (get_tokyo_weather str_of net tr)
    = Ok (TOKYO_PREFIX ++ format str_of w).
Proof.
  rewrite get_tokyo_weather_run. cbn [fst].
  destruct (net (List.length tr) jma_request) as [e | r]; [left; reflexivity |].
  destruct (success_status r); [| left; reflexivity].
  destruct (body r) as [data |]; [| left; reflexivity].
  destruct (tokyo_text_cases str_of data) as [[-> _] | [w [_ [Ht ->]]]].
  - left. reflexivity.
  - right. exists w. split; [exact Ht | reflexivity].
Qed.

Lemma get_alerts_no_data (str_of : json -> string) (net : network)
    (state : string) (tr : list request) :
  truthy (payload (net (List.length tr) (nws_request (JStr (alerts_url state)))))
    = false ->
  fst (get_alerts str_of net state tr) = Ok UNABLE_ALERTS.
Proof.
  intros H. unfold get_alerts. fold (alerts_url state).
  rewrite bind_run, make_nws_request_run, lift_run, H. reflexivity.
Qed.

Lemma get_forecast_second (str_of : json -> string) (net : network)
    (latitude longitude : float) (tr : list request)
    (properties forecast_url : json) :
  let rq1 := nws_request (JStr (points_url str_of latitude longitude)) in
  let points_data := payload (net (List.length tr) rq1) in
  truthy points_data = true ->
  getitem points_data "properties" = Ok properties ->
  getitem properties "forecast" = Ok forecast_url ->
  get_forecast str_of net latitude longitude tr
  = (let forecast_data :=
       payload (net (S (List.length tr)) (nws_request forecast_url)) in
     if negb (truthy forecast_data) then ret UNABLE_FORECAST
     else
       properties <<- lift (getitem forecast_data "properties") ;;
       periods <<- lift (getitem properties "periods") ;;
       shown <<- lift (slice_to 5 periods) ;;
       items <<- lift (iter shown) ;;
       forecasts <<- lift (map_res (format_period str_of) items) ;;
       ret (join (LF ++ "---" ++ LF) forecasts))
      ((tr ++ [rq1]) ++ [nws_request forecast_url])%list.
Proof.
  intros rq1 points_data Ht Hp Hu. unfold get_forecast.
  fold (points_url str_of latitude longitude).
  rewrite bind_run, make_nws_request_run. fold rq1. fold points_data.
  rewrite Ht. cbn [negb]. rewrite lift_run, Hp, lift_run, Hu.
  rewrite bind_run, make_nws_request_run.
  replace (List.length (tr ++ [rq1])) with (S (List.length tr))
    by (rewrite length_app; cbn; lia).
  reflexivity.
Qed.

Lemma map_res_total {A B} (f : A -> res B) (l : list A) :
  (forall x, In x l -> exists y, f x = Ok y) ->
  exists ys, map_res f l = Ok ys.
Proof.
  induction l as [| x l IH]; intros H; [exists []; reflexivity |].
  destruct (H x (or_introl eq_refl)) as [y Hy].
  destruct IH as [ys Hys]; [intros z Hz; apply H; right; exact Hz |].
  exists (y :: ys). cbn [map_res]. rewrite Hy. cbn [res_bind].
  rewrite Hys. reflexivity.
Qed.

Lemma format_alert_text (str_of : json -> string)
    (fd props : list (string * json)) :
  lookup "properties" fd = Some (JDict props) ->
  format_alert str_of (JDict fd)
  = Ok (LF ++ "Event: "
        ++ format str_of (get props "event" (JStr "Unknown")) ++ LF
        ++ "Area: "
        ++ format str_of (get props "areaDesc" (JStr "Unknown")) ++ LF
        ++ "Severity: "
        ++ format str_of (get props "severity" (JStr "Unknown")) ++ LF
        ++ "Description: "
        ++ format str_of
             (get props "description" (JStr "No description available"))
        ++ LF
        ++ "Instructions: "
        ++ format str_of
             (get props "instruction"
                (JStr "No specific instructions provided"))
        ++ LF).
Proof.
  intros H. unfold format_alert. cbn [getitem]. rewrite H. reflexivity.
Qed.

Lemma format_alert_shaped (str_of : json -> string) (feature : json) :
  alert_shaped feature = true -> exists s, format_alert str_of feature = Ok s.
Proof.
  destruct feature as [| b | n | f | s | l | fd]; try discriminate.
  cbn [alert_shaped].
  destruct (lookup "properties" fd) as [[| b | n | f | s | l | props] |] eqn:H;
    try discriminate.
  intros _. eexists. apply format_alert_text. exact H.
Qed.

Lemma format_period_shaped (str_of : json -> string) (period : json) :
  period_shaped period = true ->
  exists s, format_period str_of period = Ok s.
Proof.
  destruct period as [| b | n | f | s | l | pd]; try discriminate.
  cbn [period_shaped forallb]. unfold has_key, format_period.
  cbn [getitem]. intros H.
  repeat match goal with
         | |- context [lookup ?k pd] =>
             destruct (lookup k pd); [| discriminate H]
         end.
  eexists. reflexivity.
Qed.


Lemma lookup_truthy (d : list (string * json)) (key : string) (v : json) :
  lookup key d = Some v -> truthy (JDict d) = true.
Proof.
  destruct d; [discriminate | reflexivity].
Qed.

Lemma get_alerts_shaped (str_of : json -> string) (net : network)
    (state : string) (tr : list request) (d : list (string * json))
    (features : list json) :
  payload (net (List.length tr) (nws_request (JStr (alerts_url state))))
    = JDict d ->
  lookup "features" d = Some (JList features) ->
  forallb alert_shaped features = true ->
  exists s, fst (get_alerts str_of net state tr) = Ok s.
Proof.
  intros Hd Hl Hf. unfold get_alerts. fold (alerts_url state).
  rewrite bind_run, make_nws_request_run, Hd, lift_run.
  rewrite (lookup_truthy _ _ _ Hl). cbn [negb contains res_bind].
  rewrite Hl. cbn [negb]. rewrite lift_run. cbn [getitem]. rewrite Hl.
  destruct features as [| x rest] eqn:Hfs; [eexists; reflexivity |].
  cbn [truthy negb]. rewrite !lift_run. cbn [iter].
  destruct (map_res_total (format_alert str_of) (x :: rest)) as [ys Hys].
  { intros y Hy. apply format_alert_shaped.
    rewrite forallb_forall in Hf. exact (Hf y Hy). }
  rewrite Hys. eexists. reflexivity.
Qed.


(** C4, as stated, fails: a fetched document of an unexpected shape makes
    [get_alerts] and [get_forecast] raise. *)
Lemma handlers_raise_on_shape :
  fst (get_alerts plain_str (serving bare_feature_doc) "ZZ" [])
    = Raise KeyError /\
  fst (get_forecast plain_str (serving other_keys) 35%float 139%float [])
    = Raise KeyError.
Proof.
  split; reflexivity.
Qed.

(** C4, amended: every handler absorbs a failed fetch (transport error,
    status outside 2xx, undecodable body) and returns its own
    unable-to-fetch text, [get_forecast] at either stage;
    [get_tokyo_weather] returns a text whatever the response is. *)
Theorem handlers_absorb_fetch_failures (str_of : json -> string)
    (net : network) (tr : list request) :
  (forall state,
     failed_fetch (net (List.length tr) (nws_request (JStr (alerts_url state))))
       = true ->
     fst (get_alerts str_of net state tr) = Ok UNABLE_ALERTS) /\
  (forall latitude longitude,
     failed_fetch (net (List.length tr)
                     (nws_request (JStr (points_url str_of latitude longitude))))
       = true ->
     fst (get_forecast str_of net latitude longitude tr) = Ok UNABLE_POINTS) /\
  (forall latitude longitude properties forecast_url,
     let points_data :=
       payload (net (List.length tr)
                  (nws_request (JStr (points_url str_of latitude longitude)))) in
     truthy points_data = true ->
     getitem points_data "properties" = Ok properties ->
     getitem properties "forecast" = Ok forecast_url ->
     failed_fetch (net (S (List.length tr)) (nws_request forecast_url)) = true ->
     fst (get_forecast str_of net latitude longitude tr) = Ok UNABLE_FORECAST) /\
  (failed_fetch (net (List.length tr) jma_request) = true ->
   fst (get_tokyo_weather str_of net tr) = Ok TOKYO_UNAVAILABLE) /\
  (fst (get_tokyo_weather str_of net tr) = Ok TOKYO_UNAVAILABLE \/
   exists w, truthy w = true /\
     fst (get_tokyo_weather str_of net tr)
     = Ok (TOKYO_PREFIX ++ format str_of w)).
Proof.
  split; [| split; [| split; [| split]]].
  - intros state H. apply get_alerts_no_data.
    rewrite (failed_fetch_payload _ H). reflexivity.
  - intros latitude longitude H. rewrite get_forecast_first; [reflexivity |].
    rewrite (failed_fetch_payload _ H). reflexivity.
  - intros latitude longitude properties forecast_url points_data Ht Hp Hu H.
    rewrite (get_forecast_second str_of net latitude longitude tr
               properties forecast_url Ht Hp Hu).
    cbv zeta. rewrite (failed_fetch_payload _ H). reflexivity.
  - intros H. rewrite get_tokyo_weather_run. cbn [fst].
    destruct (net (List.length tr) jma_request) as [e | r]; [reflexivity |].
    cbn [failed_fetch] in H.
    destruct (success_status r); [| reflexivity].
    destruct (body r); [discriminate H | reflexivity].
  - apply get_tokyo_weather_total.
Qed.

Lemma handlers_absorb_fetch_failures_witness :
  fst (get_alerts plain_str unreachable "ZZ" []) = Ok UNABLE_ALERTS /\
  fst (get_forecast plain_str unreachable 35%float 139%float [])
    = Ok UNABLE_POINTS /\
  fst (get_forecast plain_str points_only 35%float 139%float [])
    = Ok UNABLE_FORECAST /\
  fst (get_tokyo_weather plain_str unreachable []) = Ok TOKYO_UNAVAILABLE.
Proof.
  split; [| split; [| split]].
  - exact (proj1 (handlers_absorb_fetch_failures plain_str unreachable [])
             "ZZ" eq_refl).
  - exact (proj1 (proj2
                    (handlers_absorb_fetch_failures plain_str unreachable []))
             35%float 139%float eq_refl).
  - exact (proj1 (proj2 (proj2
                    (handlers_absorb_fetch_failures plain_str points_only [])))
             35%float 139%float
             (JDict [("forecast", JStr "u")]) (JStr "u")
             eq_refl eq_refl eq_refl eq_refl).
  - exact (proj1 (proj2 (proj2 (proj2
                    (handlers_absorb_fetch_failures plain_str unreachable []))))
             eq_refl).
Defined.




(** * Further properties of the handlers *)

(** ** The requests a run sends *)

(** Once the document is there, [get_alerts] only computes. *)
Lemma alerts_tail_trace (str_of : json -> string) (data : json)
    (tr : list request) :
  snd ((missing <<- lift (if negb (truthy data) then Ok true
                          else b <- contains data "features" ;; Ok (negb b)) ;;
        if missing then ret UNABLE_ALERTS
        else
          features <<- lift (getitem data "features") ;;
          if negb (truthy features) then ret NO_ALERTS
          else
            features <<- lift (getitem data "features") ;;
            items <<- lift (iter features) ;;
            alerts <<- lift (map_res (format_alert str_of) items) ;;
            ret (join (LF ++ "---" ++ LF) alerts)) tr) = tr.
Proof.
  rewrite lift_run.
  destruct (if negb (truthy data) then Ok true
            else b <- contains data "features" ;; Ok (negb b))
    as [[|] |]; try reflexivity.
  rewrite lift_run.
  destruct (getitem data "features") as [features |]; [| reflexivity].
  destruct (negb (truthy features)); [reflexivity |].
  rewrite !lift_run. destruct (iter features) as [items |]; [| reflexivity].
  rewrite lift_run.
  destruct (map_res (format_alert str_of) items); reflexivity.
Qed.

(** X1: whatever the outcome, [make_nws_request], [get_alerts] and
    [get_tokyo_weather] send one request each and no more: the given URL,
    the alerts URL of the state and the JMA URL, with the fixed headers.
    There is no retry, not after a failure either. *)
Theorem one_request_per_run (str_of : json -> string) (net : network)
    (tr : list request) :
  (forall u, snd (make_nws_request net u tr) = (tr ++ [nws_request u])%list) /\
  (forall state,
     snd (get_alerts str_of net state tr)
     = (tr ++ [nws_request (JStr (alerts_url state))])%list) /\
  snd (get_tokyo_weather str_of net tr) = (tr ++ [jma_request])%list.
Proof.
  split; [| split].
  - intros u. rewrite make_nws_request_run. reflexivity.
  - intros state. unfold get_alerts. fold (alerts_url state).
    rewrite bind_run, make_nws_request_run. apply alerts_tail_trace.
  - rewrite get_tokyo_weather_run. reflexivity.
Qed.

(** X2: [get_forecast] sends the points request and at most one more.
    The second request goes to [points_data["properties"]["forecast"]]
    and is sent only when the points document is truthy and that value
    can be read; when it cannot, the exception of the subscript leaves
    the handler and nothing more is sent. *)
Theorem get_forecast_requests (str_of : json -> string) (net : network)
    (latitude longitude : float) (tr : list request) :
  let rq1 := nws_request (JStr (points_url str_of latitude longitude)) in
  let points_data := payload (net (List.length tr) rq1) in
  let run := get_forecast str_of net latitude longitude tr in
  (truthy points_data = false /\
   run = (Ok UNABLE_POINTS, (tr ++ [rq1])%list)) \/
  (exists e, truthy points_data = true /\
     getitem points_data "properties" = Raise e /\
     run = (Raise e, (tr ++ [rq1])%list)) \/
  (exists properties e, truthy points_data = true /\
     getitem points_data "properties" = Ok properties /\
     getitem properties "forecast" = Raise e /\
     run = (Raise e, (tr ++ [rq1])%list)) \/
  (exists properties forecast_url, truthy points_data = true /\
     getitem points_data "properties" = Ok properties /\
     getitem properties "forecast" = Ok forecast_url /\
     snd run = (tr ++ [rq1; nws_request forecast_url])%list).
Proof.
  intros rq1 points_data run.
  destruct (truthy points_data) eqn:Ht.
  2:{ left. split; [first [reflexivity | assumption] |]. apply get_forecast_first. exact Ht. }
  right.
  destruct (getitem points_data "properties") as [properties | e] eqn:Hp.
  2:{ left. exists e. split; [first [reflexivity | assumption] |]. split; [first [reflexivity | assumption] |].
      subst run. unfold get_forecast.
      fold (points_url str_of latitude longitude).
      rewrite bind_run, make_nws_request_run. fold rq1. fold points_data.
      rewrite Ht. cbn [negb]. rewrite lift_run, Hp. reflexivity. }
  right.
  destruct (getitem properties "forecast") as [forecast_url | e] eqn:Hu.
  2:{ left. exists properties, e.
      split; [first [reflexivity | assumption] |]. split; [first [reflexivity | assumption] |]. split; [first [reflexivity | assumption] |].
      subst run.
      unfold get_forecast. fold (points_url str_of latitude longitude).
      rewrite bind_run, make_nws_request_run. fold rq1. fold points_data.
      rewrite Ht. cbn [negb]. rewrite lift_run, Hp, lift_run, Hu.
      reflexivity. }
  right. exists properties, forecast_url.
  split; [first [reflexivity | assumption] |]. split; [first [reflexivity | assumption] |]. split; [first [reflexivity | assumption] |].
  subst run.
  rewrite (get_forecast_second str_of net latitude longitude tr
             properties forecast_url Ht Hp Hu).
  cbv zeta. rewrite <- app_assoc. cbn [app].
  destruct (negb (truthy _)); [reflexivity |].
  rewrite forecast_tail_trace. reflexivity.
Qed.

(** ** Documents that count as no data *)

(** X3: a 2xx response whose decoded body is falsy ([null], [false],
    zero, an empty string, list or map) is handled like a failed fetch:
    [get_alerts] and both stages of [get_forecast] answer with their
    unable-to-fetch text. *)
Theorem falsy_document_is_no_data (str_of : json -> string) (net : network)
    (tr : list request) (r : response) (v : json) :
  success_status r = true -> body r = Some v -> truthy v = false ->
  (forall state,
     net (List.length tr) (nws_request (JStr (alerts_url state))) = Responded r ->
     fst (get_alerts str_of net state tr) = Ok UNABLE_ALERTS) /\
  (forall latitude longitude,
     net (List.length tr)
       (nws_request (JStr (points_url str_of latitude longitude)))
     = Responded r ->
     fst (get_forecast str_of net latitude longitude tr) = Ok UNABLE_POINTS) /\
  (forall latitude longitude properties forecast_url,
     let points_data :=
       payload (net (List.length tr)
                  (nws_request (JStr (points_url str_of latitude longitude)))) in
     truthy points_data = true ->
     getitem points_data "properties" = Ok properties ->
     getitem properties "forecast" = Ok forecast_url ->
     net (S (List.length tr)) (nws_request forecast_url) = Responded r ->
     fst (get_forecast str_of net latitude longitude tr) = Ok UNABLE_FORECAST).
Proof.
  intros Hs Hb Hv.
  assert (Hpay : truthy (payload (Responded r)) = false).
  { cbn [payload]. rewrite Hs, Hb. exact Hv. }
  split; [| split].
  - intros state H. apply get_alerts_no_data. rewrite H. exact Hpay.
  - intros latitude longitude H.
    rewrite get_forecast_first; [reflexivity |]. rewrite H. exact Hpay.
  - intros latitude longitude properties forecast_url points_data Ht Hp Hu H.
    rewrite (get_forecast_second str_of net latitude longitude tr
               properties forecast_url Ht Hp Hu).
    cbv zeta. rewrite H, Hpay. reflexivity.
Qed.

Lemma falsy_document_is_no_data_witness :
  fst (get_alerts plain_str (serving (JDict [])) "ZZ" []) = Ok UNABLE_ALERTS /\
  fst (get_forecast plain_str (serving (JDict [])) 35%float 139%float [])
    = Ok UNABLE_POINTS /\
  fst (get_forecast plain_str (two_stage points_doc (JList []))
         35%float 139%float [])
    = Ok UNABLE_FORECAST.
Proof.
  split; [| split].
  - exact (proj1 (falsy_document_is_no_data plain_str (serving (JDict [])) []
                    {| status_code := 200; body := Some (JDict []) |}
                    (JDict []) eq_refl eq_refl eq_refl)
             "ZZ" eq_refl).
  - exact (proj1 (proj2
             (falsy_document_is_no_data plain_str (serving (JDict [])) []
                {| status_code := 200; body := Some (JDict []) |}
                (JDict []) eq_refl eq_refl eq_refl))
             35%float 139%float eq_refl).
  - exact (proj2 (proj2
             (falsy_document_is_no_data plain_str
                (two_stage points_doc (JList [])) []
                {| status_code := 200; body := Some (JList []) |}
                (JList []) eq_refl eq_refl eq_refl))
             35%float 139%float (JDict [("forecast", JStr "u")]) (JStr "u")
             eq_refl eq_refl eq_refl eq_refl).
Defined.

(** X4: a fetched alerts document that is not a map never yields alert
    text: the call returns the unable-to-fetch text or raises
    [TypeError]. *)
Theorem get_alerts_not_a_map (str_of : json -> string) (net : network)
    (state : string) (tr : list request) :
  is_dict (payload (net (List.length tr)
                      (nws_request (JStr (alerts_url state))))) = false ->
  fst (get_alerts str_of net state tr) = Ok UNABLE_ALERTS \/
  fst (get_alerts str_of net state tr) = Raise TypeError.
Proof.
  intros Hd. unfold get_alerts. fold (alerts_url state).
  rewrite bind_run, make_nws_request_run, lift_run.
  destruct (payload _) as [| b | n | f | s | l | d]; try discriminate Hd;
    clear Hd; cbn [truthy negb contains res_bind].
  - left. reflexivity.
  - destruct b; [right | left]; reflexivity.
  - destruct (negb (n =? 0)); [right | left]; reflexivity.
  - destruct (negb (PrimFloat.eqb f 0)); [right | left]; reflexivity.
  - destruct (negb (String.eqb s "")); [| left; reflexivity].
    cbn [negb]. destruct (is_substring "features" s); [right | left];
      reflexivity.
  - destruct l as [| x l]; [left; reflexivity |]. cbn [negb].
    destruct (existsb (is_str "features") (x :: l)); [right | left];
      reflexivity.
Qed.

Lemma get_alerts_not_a_map_witness :
  fst (get_alerts plain_str (serving (JList [JStr "features"])) "ZZ" [])
    = Ok UNABLE_ALERTS \/
  fst (get_alerts plain_str (serving (JList [JStr "features"])) "ZZ" [])
    = Raise TypeError.
Proof.
  exact (get_alerts_not_a_map plain_str (serving (JList [JStr "features"]))
           "ZZ" [] eq_refl).
Defined.

(** ** The text of a successful run *)

Lemma map_res_length {A B} (f : A -> res B) (l : list A) (ys : list B) :
  map_res f l = Ok ys -> List.length ys = List.length l.
Proof.
  revert ys. induction l as [| x l IH]; intros ys H.
  - injection H as <-. reflexivity.
  - cbn [map_res] in H. destruct (f x); cbn [res_bind] in H;
      [| discriminate H].
    destruct (map_res f l) as [zs |]; cbn [res_bind] in H; [| discriminate H].
    injection H as <-. cbn [List.length]. rewrite (IH zs eq_refl).
    reflexivity.
Qed.

(** X5: [get_alerts] formats every feature of the document, in order and
    without a cap: for a non-empty sequence of features, each a map with
    a map under ["properties"], the result is the blocks of all of them
    joined by the separator line. *)
Theorem get_alerts_all_features (str_of : json -> string) (net : network)
    (state : string) (tr : list request) (d : list (string * json))
    (features : list json) :
  payload (net (List.length tr) (nws_request (JStr (alerts_url state))))
    = JDict d ->
  lookup "features" d = Some (JList features) ->
  features <> [] ->
  forallb alert_shaped features = true ->
  exists alerts,
    map_res (format_alert str_of) features = Ok alerts /\
    List.length alerts = List.length features /\
    fst (get_alerts str_of net state tr)
    = Ok (join (LF ++ "---" ++ LF) alerts).
Proof.
  intros Hd Hl Hne Hf.
  destruct (map_res_total (format_alert str_of) features) as [alerts Ha].
  { intros y Hy. apply format_alert_shaped.
    rewrite forallb_forall in Hf. exact (Hf y Hy). }
  exists alerts. split; [exact Ha |]. split; [exact (map_res_length _ _ _ Ha) |].
  unfold get_alerts. fold (alerts_url state).
  rewrite bind_run, make_nws_request_run, Hd, lift_run.
  rewrite (lookup_truthy _ _ _ Hl). cbn [negb contains res_bind].
  rewrite Hl. cbn [negb]. rewrite lift_run. cbn [getitem]. rewrite Hl.
  destruct features as [| x rest]; [congruence |].
  cbn [truthy negb]. rewrite !lift_run. cbn [iter]. rewrite Ha.
  reflexivity.
Qed.

Lemma get_alerts_all_features_witness :
  exists alerts,
    map_res (format_alert plain_str) [JDict [("properties", JDict [])]]
      = Ok alerts /\
    List.length alerts = 1%nat /\
    fst (get_alerts plain_str (serving empty_properties_doc) "ZZ" [])
    = Ok (join (LF ++ "---" ++ LF) alerts).
Proof.
  refine (get_alerts_all_features plain_str (serving empty_properties_doc)
            "ZZ" [] [("features", JList [JDict [("properties", JDict [])]])]
            [JDict [("properties", JDict [])]] eq_refl eq_refl _ eq_refl).
  discriminate.
Defined.

Lemma get_forecast_first_five_text (str_of : json -> string)
    (net : network) (latitude longitude : float) (tr : list request)
    (properties forecast_url : json)
    (fd fprops : list (string * json)) (periods : list json) :
  let rq1 := nws_request (JStr (points_url str_of latitude longitude)) in
  let points_data := payload (net (List.length tr) rq1) in
  truthy points_data = true ->
  getitem points_data "properties" = Ok properties ->
  getitem properties "forecast" = Ok forecast_url ->
  payload (net (S (List.length tr)) (nws_request forecast_url)) = JDict fd ->
  lookup "properties" fd = Some (JDict fprops) ->
  lookup "periods" fprops = Some (JList periods) ->
  forallb period_shaped (firstn 5 periods) = true ->
  exists forecasts,
    map_res (format_period str_of) (firstn 5 periods) = Ok forecasts /\
    fst (get_forecast str_of net latitude longitude tr)
    = Ok (join (LF ++ "---" ++ LF) forecasts).
Proof.
  intros rq1 points_data Ht Hp Hu Hfd Hfp Hps Hshape.
  destruct (map_res_total (format_period str_of) (firstn 5 periods))
    as [forecasts Hfs].
  { intros y Hy. apply format_period_shaped.
    rewrite forallb_forall in Hshape. exact (Hshape y Hy). }
  exists forecasts. split; [exact Hfs |].
  rewrite (get_forecast_second str_of net latitude longitude tr
             properties forecast_url Ht Hp Hu).
  cbv zeta. rewrite Hfd, (lookup_truthy _ _ _ Hfp). cbn [negb].
  rewrite lift_run. cbn [getitem]. rewrite Hfp.
  rewrite lift_run. cbn [getitem]. rewrite Hps.
  rewrite lift_run. cbn [slice_to]. rewrite lift_run. cbn [iter].
  rewrite lift_run, Hfs. reflexivity.
Qed.

(** X6: [get_forecast] shows the first five periods and reads no other:
    when the first five (or all, if fewer) are maps with the six period
    fields, the result is their blocks joined by the separator line,
    whatever the later periods are. *)
Theorem get_forecast_first_five (str_of : json -> string) (net : network)
    (latitude longitude : float) (tr : list request)
    (properties forecast_url : json)
    (fd fprops : list (string * json)) (periods : list json) :
  let rq1 := nws_request (JStr (points_url str_of latitude longitude)) in
  let points_data := payload (net (List.length tr) rq1) in
  truthy points_data = true ->
  getitem points_data "properties" = Ok properties ->
  getitem properties "forecast" = Ok forecast_url ->
  payload (net (S (List.length tr)) (nws_request forecast_url)) = JDict fd ->
  lookup "properties" fd = Some (JDict fprops) ->
  lookup "periods" fprops = Some (JList periods) ->
  forallb period_shaped (firstn 5 periods) = true ->
  exists forecasts,
    map_res (format_period str_of) (firstn 5 periods) = Ok forecasts /\
    List.length forecasts = Nat.min 5 (List.length periods) /\
    fst (get_forecast str_of net latitude longitude tr)
    = Ok (join (LF ++ "---" ++ LF) forecasts).
Proof.
  intros rq1 points_data Ht Hp Hu Hfd Hfp Hps Hshape.
  destruct (get_forecast_first_five_text str_of net latitude longitude tr
              properties forecast_url fd fprops periods
              Ht Hp Hu Hfd Hfp Hps Hshape) as [forecasts [Hfs H]].
  exists forecasts. split; [exact Hfs |]. split; [| exact H].
  rewrite (map_res_length _ _ _ Hfs). apply length_firstn.
Qed.

Lemma get_forecast_first_five_witness :
  exists forecasts,
    map_res (format_period plain_str) (firstn 5 six_periods) = Ok forecasts /\
    List.length forecasts = 5%nat /\
    fst (get_forecast plain_str (two_stage points_doc six_periods_doc)
           35%float 139%float [])
    = Ok (join (LF ++ "---" ++ LF) forecasts).
Proof.
  exact (get_forecast_first_five plain_str
           (two_stage points_doc six_periods_doc) 35%float 139%float []
           (JDict [("forecast", JStr "u")]) (JStr "u")
           [("properties", JDict [("periods", JList six_periods)])]
           [("periods", JList six_periods)] six_periods
           eq_refl eq_refl eq_refl eq_refl eq_refl eq_refl eq_refl).
Defined.

(** ** [get_tokyo_weather]: documents it gives up on *)

Lemma tokyo_text_raise (str_of : json -> string) (data : json) (e : exn) :
  preferred_pass data = Raise e -> tokyo_text str_of data = TOKYO_UNAVAILABLE.
Proof.
  intros H. unfold tokyo_text, resolve. rewrite H. reflexivity.
Qed.

(** X7: when the decoded body is not a list (a map, a string, a number,
    [null]) or is the empty list, [get_tokyo_weather] returns the failure
    sentinel. *)
Theorem get_tokyo_weather_not_a_list (str_of : json -> string)
    (net : network) (tr : list request) (r : response) (data : json) :
  net (List.length tr) jma_request = Responded r ->
  success_status r = true -> body r = Some data ->
  is_list data = false \/ data = JList [] ->
  fst (get_tokyo_weather str_of net tr) = Ok TOKYO_UNAVAILABLE.
Proof.
  intros Hn Hs Hb Hd. rewrite get_tokyo_weather_run, Hn, Hs, Hb. cbn [fst].
  destruct Hd as [Hd | ->]; [| reflexivity].
  destruct data; try discriminate Hd; reflexivity.
Qed.

Lemma get_tokyo_weather_not_a_list_witness :
  fst (get_tokyo_weather plain_str
         (serving (series [area_named "東京" [JStr "晴れ"]])) [])
  = Ok TOKYO_UNAVAILABLE.
Proof.
  exact (get_tokyo_weather_not_a_list plain_str
           (serving (series [area_named "東京" [JStr "晴れ"]])) []
           {| status_code := 200;
              body := Some (series [area_named "東京" [JStr "晴れ"]]) |}
           (series [area_named "東京" [JStr "晴れ"]])
           eq_refl eq_refl eq_refl (or_introl eq_refl)).
Defined.

Lemma iter_scalar (v : json) : iterable v = false -> iter v = Raise TypeError.
Proof.
  destruct v; try discriminate; reflexivity.
Qed.

(** X8: a ["timeSeries"] or ["areas"] entry that is a number, a boolean
    or [null] is not skipped: the loop over it raises [TypeError], the
    traversal ends there and [get_tokyo_weather] returns the failure
    sentinel, whatever areas follow. *)
Theorem traversal_gives_up_on_scalar (str_of : json -> string)
    (net : network) (tr : list request) (r : response)
    (objs_before objs_after : list json) (obj_d : list (string * json)) :
  let data := JList (objs_before ++ JDict obj_d :: objs_after) in
  net (List.length tr) jma_request = Responded r ->
  success_status r = true -> body r = Some data ->
  forallb unmatched_report objs_before = true ->
  (forall v,
     lookup "timeSeries" obj_d = Some v -> iterable v = false ->
     preferred_pass data = Raise TypeError /\
     fst (get_tokyo_weather str_of net tr) = Ok TOKYO_UNAVAILABLE) /\
  (forall ts_before ts_after ts_d v,
     lookup "timeSeries" obj_d
       = Some (JList (ts_before ++ JDict ts_d :: ts_after)) ->
     forallb unmatched_series ts_before = true ->
     lookup "areas" ts_d = Some v -> iterable v = false ->
     preferred_pass data = Raise TypeError /\
     fst (get_tokyo_weather str_of net tr) = Ok TOKYO_UNAVAILABLE).
Proof.
  intros data Hn Hs Hb H1.
  assert (Hend : preferred_pass data = Raise TypeError ->
                 preferred_pass data = Raise TypeError /\
                 fst (get_tokyo_weather str_of net tr) = Ok TOKYO_UNAVAILABLE).
  { intros H. split; [exact H |].
    rewrite get_tokyo_weather_run, Hn, Hs, Hb. cbn [fst].
    rewrite (tokyo_text_raise str_of data TypeError H). reflexivity. }
  pose proof (preferred_reports_unmatched objs_before JNull H1) as E1.
  split.
  - intros v Hv Hi. apply Hend. unfold data. cbn [preferred_pass].
    rewrite (preferred_reports_resume _ _ _ _ E1 eq_refl).
    cbn [preferred_reports is_dict dict_get res_bind].
    rewrite (get_found _ _ _ _ Hv), (iter_scalar v Hi). reflexivity.
  - intros ts_before ts_after ts_d v Hts H2 Hv Hi. apply Hend.
    unfold data. cbn [preferred_pass].
    rewrite (preferred_reports_resume _ _ _ _ E1 eq_refl).
    cbn [preferred_reports is_dict dict_get res_bind].
    rewrite (get_found _ _ _ _ Hts). cbn [iter res_bind].
    rewrite (preferred_series_resume _ _ _ _
               (preferred_series_unmatched ts_before JNull H2) eq_refl).
    cbn [preferred_series is_dict dict_get res_bind].
    rewrite (get_found _ _ _ _ Hv), (iter_scalar v Hi). reflexivity.
Qed.

Lemma traversal_gives_up_on_scalar_witness :
  preferred_pass scalar_series_doc = Raise TypeError /\
  fst (get_tokyo_weather plain_str (serving scalar_series_doc) [])
    = Ok TOKYO_UNAVAILABLE.
Proof.
  exact (proj1 (traversal_gives_up_on_scalar plain_str
                  (serving scalar_series_doc) []
                  {| status_code := 200; body := Some scalar_series_doc |}
                  [] [report [series [area_named "東京" [JStr "晴れ"]]]]
                  [("timeSeries", JInt 5)]
                  eq_refl eq_refl eq_refl eq_refl)
           (JInt 5) eq_refl eq_refl).
Defined.

(** X9: an area with a non-empty weathers list whose name is a number, a
    boolean or [null] makes the membership test of the first pass raise
    [TypeError]: [get_tokyo_weather] returns the failure sentinel,
    whatever areas follow. *)
Theorem traversal_gives_up_on_scalar_name (str_of : json -> string)
    (net : network) (tr : list request) (r : response)
    (objs_before objs_after ts_before ts_after a_before a_after : list json)
    (obj_d ts_d bd info : list (string * json))
    (name w : json) (ws : list json) :
  let data := JList (objs_before ++ JDict obj_d :: objs_after) in
  net (List.length tr) jma_request = Responded r ->
  success_status r = true -> body r = Some data ->
  forallb unmatched_report objs_before = true ->
  lookup "timeSeries" obj_d
    = Some (JList (ts_before ++ JDict ts_d :: ts_after)) ->
  forallb unmatched_series ts_before = true ->
  lookup "areas" ts_d = Some (JList (a_before ++ JDict bd :: a_after)) ->
  forallb unmatched a_before = true ->
  lookup "weathers" bd = Some (JList (w :: ws)) ->
  lookup "area" bd = Some (JDict info) ->
  lookup "name" info = Some name -> iterable name = false ->
  preferred_pass data = Raise TypeError /\
  fst (get_tokyo_weather str_of net tr) = Ok TOKYO_UNAVAILABLE.
Proof.
  intros data Hn Hs Hb H1 Hts H2 Har H3 Hw Ha Hnm Hi.
  assert (Hp : preferred_pass data = Raise TypeError).
  { unfold data. cbn [preferred_pass].
    rewrite (preferred_reports_resume _ _ _ _
               (preferred_reports_unmatched objs_before JNull H1) eq_refl).
    cbn [preferred_reports is_dict dict_get res_bind].
    rewrite (get_found _ _ _ _ Hts). cbn [iter res_bind].
    rewrite (preferred_series_resume _ _ _ _
               (preferred_series_unmatched ts_before JNull H2) eq_refl).
    cbn [preferred_series is_dict dict_get res_bind].
    rewrite (get_found _ _ _ _ Har). cbn [iter res_bind].
    rewrite preferred_areas_skip.
    2:{ apply Forall_forall. intros a Hin. apply preferred_area_unmatched.
        rewrite forallb_forall in H3. exact (H3 a Hin). }
    cbn [preferred_areas]. unfold preferred_area.
    cbn [is_dict negb dict_get res_bind].
    rewrite (get_found _ _ _ _ Hw). cbn [is_list truthy negb orb].
    rewrite !(get_found _ _ _ _ Ha). cbn [is_dict dict_get res_bind].
    rewrite (get_found _ _ _ _ Hnm).
    destruct name; try discriminate Hi; reflexivity. }
  split; [exact Hp |].
  rewrite get_tokyo_weather_run, Hn, Hs, Hb. cbn [fst].
  rewrite (tokyo_text_raise str_of data TypeError Hp). reflexivity.
Qed.

Lemma traversal_gives_up_on_scalar_name_witness :
  preferred_pass scalar_name_doc = Raise TypeError /\
  fst (get_tokyo_weather plain_str (serving scalar_name_doc) [])
    = Ok TOKYO_UNAVAILABLE.
Proof.
  exact (traversal_gives_up_on_scalar_name plain_str
           (serving scalar_name_doc) []
           {| status_code := 200; body := Some scalar_name_doc |}
           [] [] [] [] [] [area_named "東京" [JStr "晴れ"]]
           [("timeSeries",
             JList [series [JDict [("area", JDict [("name", JInt 13)]);
                                   ("weathers", JList [JStr "雨"])];
                            area_named "東京" [JStr "晴れ"]]])]
           [("areas",
             JList [JDict [("area", JDict [("name", JInt 13)]);
                           ("weathers", JList [JStr "雨"])];
                    area_named "東京" [JStr "晴れ"]])]
           [("area", JDict [("name", JInt 13)]);
            ("weathers", JList [JStr "雨"])]
           [("name", JInt 13)] (JInt 13) (JStr "雨") []
           eq_refl eq_refl eq_refl eq_refl eq_refl eq_refl eq_refl eq_refl
           eq_refl eq_refl eq_refl eq_refl).
Defined.

(** ** What the passes look at *)

Lemma prefix_app (a b s : string) :
  String.prefix (a ++ b) s = true -> String.prefix a s = true.
Proof.
  revert s. induction a as [| c a IH]; intros s H.
  - destruct s; reflexivity.
  - destruct s as [| c' s]; cbn in *; [discriminate H |].
    destruct (ascii_dec c c'); [exact (IH s H) | discriminate H].
Qed.

Lemma is_substring_app (a b s : string) :
  is_substring (a ++ b) s = true -> is_substring a s = true.
Proof.
  induction s as [| c s IH]; cbn [is_substring]; intros H;
    apply orb_true_iff in H; apply orb_true_iff.
  - destruct H as [H | H]; [left; exact (prefix_app a b _ H) | discriminate H].
  - destruct H as [H | H]; [left; exact (prefix_app a b _ H) | right; auto].
Qed.

(** X10: as the names are looked up as substrings, the first preferred
    name adds nothing to the second: for an area name that is a string,
    the test of the first pass holds exactly when the name contains 東京
    or Tokyo. *)
Theorem preferred_names_tokyo (nm : string) :
  any_in preferred_names (JStr nm)
  = Ok (is_substring "東京" nm || is_substring "Tokyo" nm).
Proof.
  rewrite any_in_str. unfold preferred_names. cbn [existsb].
  rewrite orb_false_r.
  destruct (is_substring "東京地方" nm) eqn:H; [| reflexivity].
  rewrite (is_substring_app "東京" "地方" nm H). reflexivity.
Qed.

(** X11: in the second pass an areas sequence is decided by its first
    map: its first weather entry when it has a non-empty weathers list,
    no change of [today_weather] otherwise.  What comes before it and is
    not a map is skipped, and what comes after it is not looked at. *)
Theorem fallback_areas_first_map (a_before a_after : list json)
    (ad : list (string * json)) (today_weather : json) :
  forallb (fun a => negb (is_dict a)) a_before = true ->
  fallback_areas (a_before ++ JDict ad :: a_after) today_weather
  = Ok match get ad "weathers" JNull with
       | JList (w :: _) => w
       | _ => today_weather
       end.
Proof.
  intros H. rewrite (fallback_areas_skip _ _ _ H).
  cbn [fallback_areas is_dict dict_get res_bind].
  destruct (get ad "weathers" JNull) as [| b | n | f | s | [| w ws] | d];
    reflexivity.
Qed.

Lemma fallback_areas_first_map_witness :
  fallback_areas
    [JNull; JDict [("area", JDict [])]; area_unnamed [JStr "くもり"]] JNull
  = Ok JNull.
Proof.
  exact (fallback_areas_first_map [JNull] [area_unnamed [JStr "くもり"]]
           [("area", JDict [])] JNull eq_refl).
Defined.

Lemma preferred_areas_maps (l : list json) (tw : json) :
  preferred_areas (filter is_dict l) tw = preferred_areas l tw.
Proof.
  induction l as [| a l IH]; [reflexivity |]. cbn [filter].
  destruct (is_dict a) eqn:Ha.
  - cbn [preferred_areas]. rewrite IH. reflexivity.
  - cbn [preferred_areas]. unfold preferred_area. rewrite Ha.
    cbn [negb res_bind]. exact IH.
Qed.

Lemma fallback_areas_maps (l : list json) (tw : json) :
  fallback_areas (filter is_dict l) tw = fallback_areas l tw.
Proof.
  induction l as [| a l IH]; [reflexivity |]. cbn [filter].
  destruct (is_dict a) eqn:Ha; cbn [fallback_areas]; rewrite Ha;
    [reflexivity | exact IH].
Qed.

Lemma preferred_series_maps (l : list json) (tw : json) :
  truthy tw = false ->
  preferred_series (filter is_dict l) tw = preferred_series l tw.
Proof.
  revert tw. induction l as [| ts l IH]; intros tw Hf; [reflexivity |].
  cbn [filter]. destruct (is_dict ts) eqn:Hts; cbn [preferred_series];
    rewrite Hts.
  - destruct (dict_get ts "areas" (JList [])) as [areas |];
      cbn [res_bind]; [| reflexivity].
    destruct (iter areas) as [items |]; cbn [res_bind]; [| reflexivity].
    destruct (preferred_areas items tw) as [tw' |]; cbn [res_bind];
      [| reflexivity].
    destruct (truthy tw') eqn:Ht; [reflexivity | exact (IH tw' Ht)].
  - cbn [iter res_bind preferred_areas]. rewrite Hf. exact (IH tw Hf).
Qed.

Lemma fallback_series_maps (l : list json) (tw : json) :
  truthy tw = false ->
  fallback_series (filter is_dict l) tw = fallback_series l tw.
Proof.
  revert tw. induction l as [| ts l IH]; intros tw Hf; [reflexivity |].
  cbn [filter]. destruct (is_dict ts) eqn:Hts; cbn [fallback_series];
    rewrite Hts.
  - destruct (dict_get ts "areas" (JList [])) as [areas |];
      cbn [res_bind]; [| reflexivity].
    destruct (iter areas) as [items |]; cbn [res_bind]; [| reflexivity].
    destruct (fallback_areas items tw) as [tw' |]; cbn [res_bind];
      [| reflexivity].
    destruct (truthy tw') eqn:Ht; [reflexivity | exact (IH tw' Ht)].
  - cbn [iter res_bind fallback_areas]. rewrite Hf. exact (IH tw Hf).
Qed.

Lemma preferred_reports_maps (l : list json) (tw : json) :
  truthy tw = false ->
  preferred_reports (filter is_dict l) tw = preferred_reports l tw.
Proof.
  revert tw. induction l as [| obj l IH]; intros tw Hf; [reflexivity |].
  cbn [filter]. destruct (is_dict obj) eqn:Ho; cbn [preferred_reports];
    rewrite Ho.
  - destruct (dict_get obj "timeSeries" (JList [])) as [time_series |];
      cbn [res_bind]; [| reflexivity].
    destruct (iter time_series) as [items |]; cbn [res_bind]; [| reflexivity].
    destruct (preferred_series items tw) as [tw' |]; cbn [res_bind];
      [| reflexivity].
    destruct (truthy tw') eqn:Ht; [reflexivity | exact (IH tw' Ht)].
  - cbn [iter res_bind preferred_series]. rewrite Hf. exact (IH tw Hf).
Qed.

Lemma fallback_reports_maps (l : list json) (tw : json) :
  truthy tw = false ->
  fallback_reports (filter is_dict l) tw = fallback_reports l tw.
Proof.
  revert tw. induction l as [| obj l IH]; intros tw Hf; [reflexivity |].
  cbn [filter]. destruct (is_dict obj) eqn:Ho; cbn [fallback_reports];
    rewrite Ho.
  - destruct (dict_get obj "timeSeries" (JList [])) as [time_series |];
      cbn [res_bind]; [| reflexivity].
    destruct (iter time_series) as [items |]; cbn [res_bind]; [| reflexivity].
    destruct (fallback_series items tw) as [tw' |]; cbn [res_bind];
      [| reflexivity].
    destruct (truthy tw') eqn:Ht; [reflexivity | exact (IH tw' Ht)].
  - cbn [iter res_bind fallback_series]. rewrite Hf. exact (IH tw Hf).
Qed.

(** X12: entries that are not maps are skipped at each level: removing
    them from a list of areas, of time series or of reports changes the
    result of neither pass, and removing them from the reports of a
    document leaves the text of [get_tokyo_weather] as it is. *)
Theorem non_maps_are_skipped (str_of : json -> string) :
  (forall areas tw,
     preferred_areas (filter is_dict areas) tw = preferred_areas areas tw /\
     fallback_areas (filter is_dict areas) tw = fallback_areas areas tw) /\
  (forall time_series tw, truthy tw = false ->
     preferred_series (filter is_dict time_series) tw
       = preferred_series time_series tw /\
     fallback_series (filter is_dict time_series) tw
       = fallback_series time_series tw) /\
  (forall objs,
     resolve (JList (filter is_dict objs)) = resolve (JList objs) /\
     tokyo_text str_of (JList (filter is_dict objs))
       = tokyo_text str_of (JList objs)).
Proof.
  split; [| split].
  - intros areas tw. split;
      [apply preferred_areas_maps | apply fallback_areas_maps].
  - intros time_series tw Hf. split;
      [apply preferred_series_maps | apply fallback_series_maps]; exact Hf.
  - intros objs.
    assert (Hr : resolve (JList (filter is_dict objs)) = resolve (JList objs)).
    { unfold resolve. cbn [preferred_pass].
      rewrite (preferred_reports_maps objs JNull eq_refl).
      destruct (preferred_reports objs JNull) as [tw |]; cbn [res_bind];
        [| reflexivity].
      unfold fallback_pass. cbn [is_list].
      destruct (truthy tw) eqn:Ht; cbn [negb andb]; [reflexivity |].
      apply fallback_reports_maps. exact Ht. }
    split; [exact Hr |]. unfold tokyo_text. rewrite Hr. reflexivity.
Qed.

Lemma non_maps_are_skipped_witness :
  preferred_series (filter is_dict [JInt 1; series [area_named "東京" [JStr "雪"]]])
    JNull
  = preferred_series [JInt 1; series [area_named "東京" [JStr "雪"]]] JNull /\
  resolve (JList (filter is_dict padded_doc)) = resolve (JList padded_doc).
Proof.
  split.
  - exact (proj1 (proj1 (proj2 (non_maps_are_skipped plain_str))
                    [JInt 1; series [area_named "東京" [JStr "雪"]]] JNull
                    eq_refl)).
  - exact (proj1 (proj2 (proj2 (non_maps_are_skipped plain_str)) padded_doc)).
Defined.

Lemma iter_strings (v : json) (items : list json) :
  is_list v = false -> iter v = Ok items -> filter is_dict items = [].
Proof.
  destruct v as [| b | n | f | s | l | d]; try discriminate; intros _ H;
    injection H as <-.
  - induction (chars s) as [| c cs IH]; [reflexivity | exact IH].
  - induction d as [| kv d IH]; [reflexivity | exact IH].
Qed.

(** X13: a ["timeSeries"] or ["areas"] entry that is a string or a map
    is iterated, over its characters or keys, and none of these is a map:
    the report or time series is passed over as if the entry were an
    empty list, in both passes. *)
Theorem string_or_map_entry_is_empty (d : list (string * json)) (v : json)
    (rest : list json) (tw : json) :
  is_list v = false -> iterable v = true -> truthy tw = false ->
  (lookup "areas" d = Some v ->
   preferred_series (JDict d :: rest) tw = preferred_series rest tw /\
   fallback_series (JDict d :: rest) tw = fallback_series rest tw) /\
  (lookup "timeSeries" d = Some v ->
   preferred_reports (JDict d :: rest) tw = preferred_reports rest tw /\
   fallback_reports (JDict d :: rest) tw = fallback_reports rest tw).
Proof.
  intros Hl Hi Hf.
  destruct (iter v) as [items |] eqn:Hit;
    [| destruct v; discriminate].
  pose proof (iter_strings v items Hl Hit) as Hnone.
  split; intros Hv; split;
    cbn [preferred_series fallback_series preferred_reports fallback_reports
         is_dict dict_get res_bind];
    rewrite (get_found _ _ _ _ Hv), Hit; cbn [res_bind].
  - rewrite <- preferred_areas_maps, Hnone. cbn [preferred_areas res_bind].
    rewrite Hf. reflexivity.
  - rewrite <- fallback_areas_maps, Hnone. cbn [fallback_areas res_bind].
    rewrite Hf. reflexivity.
  - rewrite <- (preferred_series_maps items tw Hf), Hnone.
    cbn [preferred_series res_bind]. rewrite Hf. reflexivity.
  - rewrite <- (fallback_series_maps items tw Hf), Hnone.
    cbn [fallback_series res_bind]. rewrite Hf. reflexivity.
Qed.

Lemma string_or_map_entry_is_empty_witness :
  preferred_series
    [JDict [("areas", JStr "東京")]; series [area_named "東京" [JStr "雪"]]]
    JNull
  = preferred_series [series [area_named "東京" [JStr "雪"]]] JNull /\
  fallback_reports
    [JDict [("timeSeries", JDict [("areas", JNull)])];
     report [series [area_unnamed [JStr "雪"]]]]
    JNull
  = fallback_reports [report [series [area_unnamed [JStr "雪"]]]] JNull.
Proof.
  split.
  - exact (proj1 (proj1 (string_or_map_entry_is_empty
                           [("areas", JStr "東京")] (JStr "東京")
                           [series [area_named "東京" [JStr "雪"]]] JNull
                           eq_refl eq_refl eq_refl)
                    eq_refl)).
  - exact (proj2 (proj2 (string_or_map_entry_is_empty
                           [("timeSeries", JDict [("areas", JNull)])]
                           (JDict [("areas", JNull)])
                           [report [series [area_unnamed [JStr "雪"]]]] JNull
                           eq_refl eq_refl eq_refl)
                    eq_refl)).
Defined.

(** ** When the formatters fail *)

Lemma map_res_ok_iff {A B} (f : A -> res B) (l : list A) :
  (exists ys, map_res f l = Ok ys) <->
  (forall x, In x l -> exists y, f x = Ok y).
Proof.
  split; [| apply map_res_total].
  induction l as [| x l IH]; intros [ys H] z Hz; [destruct Hz |].
  cbn [map_res] in H.
  destruct (f x) as [y |] eqn:Hx; cbn [res_bind] in H; [| discriminate H].
  destruct (map_res f l) as [zs |] eqn:Hl; cbn [res_bind] in H;
    [| discriminate H].
  destruct Hz as [<- | Hz]; [exists y; exact Hx |].
  apply IH; [exists zs; reflexivity | exact Hz].
Qed.

Lemma format_alert_ok_shaped (str_of : json -> string) (feature : json)
    (s : string) :
  format_alert str_of feature = Ok s -> alert_shaped feature = true.
Proof.
  intros H. unfold format_alert in H.
  destruct feature as [| b | n | f | t | l | fd]; try discriminate H.
  cbn [getitem alert_shaped] in *.
  destruct (lookup "properties" fd) as [props |]; [| discriminate H].
  cbn [res_bind] in H.
  destruct props; try discriminate H; reflexivity.
Qed.

Lemma format_period_ok_shaped (str_of : json -> string) (period : json)
    (s : string) :
  format_period str_of period = Ok s -> period_shaped period = true.
Proof.
  intros H. unfold format_period in H.
  destruct period as [| b | n | f | t | l | pd]; try discriminate H.
  cbn [getitem period_shaped forallb] in *. unfold has_key.
  repeat match type of H with
         | res_bind match lookup ?k pd with _ => _ end _ = Ok _ =>
             destruct (lookup k pd); cbn [res_bind] in H; [| discriminate H]
         end.
  reflexivity.
Qed.

(** X14: [format_alert] returns a text exactly for a feature that is a
    map with a map under ["properties"], and the block of a forecast
    period is built exactly for a map that has the six period fields;
    on anything else they raise. *)
Theorem formatters_succeed_iff (str_of : json -> string) :
  (forall feature,
     (exists s, format_alert str_of feature = Ok s) <->
     alert_shaped feature = true) /\
  (forall period,
     (exists s, format_period str_of period = Ok s) <->
     period_shaped period = true).
Proof.
  split.
  - intros feature. split; [| apply format_alert_shaped].
    intros [s H]. exact (format_alert_ok_shaped str_of feature s H).
  - intros period. split; [| apply format_period_shaped].
    intros [s H]. exact (format_period_ok_shaped str_of period s H).
Qed.

(** X15: on a map document whose ["features"] entry is a sequence,
    [get_alerts] returns a text exactly when every feature is a map with
    a map under ["properties"]; one feature of another shape makes the
    whole call raise, whatever the others are. *)
Theorem get_alerts_succeeds_iff (str_of : json -> string) (net : network)
    (state : string) (tr : list request) (d : list (string * json))
    (features : list json) :
  payload (net (List.length tr) (nws_request (JStr (alerts_url state))))
    = JDict d ->
  lookup "features" d = Some (JList features) ->
  (exists s, fst (get_alerts str_of net state tr) = Ok s) <->
  forallb alert_shaped features = true.
Proof.
  intros Hd Hl. split; [| apply (get_alerts_shaped _ _ _ _ _ _ Hd Hl)].
  intros [s H]. revert H. unfold get_alerts. fold (alerts_url state).
  rewrite bind_run, make_nws_request_run, Hd, lift_run.
  rewrite (lookup_truthy _ _ _ Hl). cbn [negb contains res_bind].
  rewrite Hl. cbn [negb]. rewrite lift_run. cbn [getitem]. rewrite Hl.
  destruct features as [| x rest]; [reflexivity |].
  cbn [truthy negb]. rewrite !lift_run. cbn [iter].
  destruct (map_res (format_alert str_of) (x :: rest)) as [alerts |] eqn:Hm;
    [| discriminate].
  intros _. apply forallb_forall. intros y Hy.
  destruct (proj1 (map_res_ok_iff (format_alert str_of) (x :: rest))
              (ex_intro _ alerts Hm) y Hy) as [t Ht].
  exact (format_alert_ok_shaped str_of y t Ht).
Qed.

Lemma get_alerts_succeeds_iff_witness :
  (exists s, fst (get_alerts plain_str (serving empty_properties_doc) "ZZ" [])
             = Ok s) <->
  forallb alert_shaped [JDict [("properties", JDict [])]] = true.
Proof.
  exact (get_alerts_succeeds_iff plain_str (serving empty_properties_doc)
           "ZZ" [] [("features", JList [JDict [("properties", JDict [])]])]
           [JDict [("properties", JDict [])]] eq_refl eq_refl).
Defined.

(** X16: once both documents are fetched and the forecast document has a
    sequence under [properties.periods], [get_forecast] returns a text
    exactly when each of the first five periods is a map with the six
    period fields; one of them of another shape makes the whole call
    raise, and the periods after the fifth do not count. *)
Theorem get_forecast_succeeds_iff (str_of : json -> string) (net : network)
    (latitude longitude : float) (tr : list request)
    (properties forecast_url : json)
    (fd fprops : list (string * json)) (periods : list json) :
  let rq1 := nws_request (JStr (points_url str_of latitude longitude)) in
  let points_data := payload (net (List.length tr) rq1) in
  truthy points_data = true ->
  getitem points_data "properties" = Ok properties ->
  getitem properties "forecast" = Ok forecast_url ->
  payload (net (S (List.length tr)) (nws_request forecast_url)) = JDict fd ->
  lookup "properties" fd = Some (JDict fprops) ->
  lookup "periods" fprops = Some (JList periods) ->
  (exists s, fst (get_forecast str_of net latitude longitude tr) = Ok s) <->
  forallb period_shaped (firstn 5 periods) = true.
Proof.
  intros rq1 points_data Ht Hp Hu Hfd Hfp Hps. split.
  - intros [s H]. revert H.
    rewrite (get_forecast_second str_of net latitude longitude tr
               properties forecast_url Ht Hp Hu).
    cbv zeta. rewrite Hfd, (lookup_truthy _ _ _ Hfp). cbn [negb].
    rewrite lift_run. cbn [getitem]. rewrite Hfp.
    rewrite lift_run. cbn [getitem]. rewrite Hps.
    rewrite lift_run. cbn [slice_to]. rewrite lift_run. cbn [iter].
    rewrite lift_run.
    destruct (map_res (format_period str_of) (firstn 5 periods))
      as [forecasts |] eqn:Hm; [| discriminate].
    intros _. apply forallb_forall. intros y Hy.
    destruct (proj1 (map_res_ok_iff (format_period str_of) (firstn 5 periods))
                (ex_intro _ forecasts Hm) y Hy) as [t Hty].
    exact (format_period_ok_shaped str_of y t Hty).
  - intros Hshape.
    destruct (get_forecast_first_five_text str_of net latitude longitude tr
                properties forecast_url fd fprops periods
                Ht Hp Hu Hfd Hfp Hps Hshape) as [forecasts [_ H]].
    exists (join (LF ++ "---" ++ LF) forecasts). exact H.
Qed.

Lemma get_forecast_succeeds_iff_witness :
  (exists s, fst (get_forecast plain_str (two_stage points_doc six_periods_doc)
                    35%float 139%float [])
             = Ok s) <->
  forallb period_shaped (firstn 5 six_periods) = true.
Proof.
  exact (get_forecast_succeeds_iff plain_str
           (two_stage points_doc six_periods_doc) 35%float 139%float []
           (JDict [("forecast", JStr "u")]) (JStr "u")
           [("properties", JDict [("periods", JList six_periods)])]
           [("periods", JList six_periods)] six_periods
           eq_refl eq_refl eq_refl eq_refl eq_refl eq_refl).
Defined.

Lemma formatters_succeed_iff_witness :
  (exists s, format_alert plain_str (JDict [("properties", JDict [])]) = Ok s) /\
  period_shaped (full_period "Tonight") = true.
Proof.
  split.
  - exact (proj2 (proj1 (formatters_succeed_iff plain_str)
                    (JDict [("properties", JDict [])])) eq_refl).
  - exact (proj1 (proj2 (formatters_succeed_iff plain_str)
                    (full_period "Tonight"))
             (ex_intro _ _ eq_refl)).
Defined.
